(** * Settings menus of the configuration cog (lightning/cogs/config/ui.py)
      and process bootstrap (lightning/cli/main.py)

    A shallow embedding of the two settings menus, [AutoRole] and [Prefix],
    and of the [PrefixModal] they use; module [Cli] further down embeds
    main.py.  The handlers are coroutines that
    talk to the bot's backing API and to Discord; here they are programs
    of a state-and-exception monad over a world that holds the backend and
    the sequence of calls made so far. *)

From Stdlib Require Import Ascii.
From stdpp Require Import base strings list gmap pretty.

Open Scope Z_scope.
Open Scope string_scope.

(** ** Exceptions and results *)

(** The exceptions that cross the handlers: [NotFound] is
    [sanctum.exceptions.NotFound], [ValueError] is what [list.remove]
    raises, [StorageError] stands for every other failure of a backing
    call. *)
Inductive exn : Type :=
| NotFound
| ValueError
| StorageError.

Inductive result (A : Type) : Type :=
| Ok (a : A)
| Raise (e : exn).
Arguments Ok {A} a.
Arguments Raise {A} e.

Global Instance exn_eq_dec : EqDecision exn.
Proof. solve_decision. Defined.

(** ** Values passed around by the menus *)

Module Role.
(** A [discord.Role], as far as the menus look at it. *)
Record t : Type := mk { id : Z; mention : string }.
End Role.

(** Modelled from the spec: the record class that [get_guild_bot_config]
    returns is declared outside ui.py.  Section 3 of the specification
    gives it an optional [autorole_id] and the resolved [autorole]: the
    role the id resolves to in the guild, absent when the id is unset or
    no longer resolves to a live role. *)
Record GuildBotConfig : Type := mkConfig {
  autorole_id : option Z;
  get_role : Z → option Role.t
}.

Definition autorole (record : GuildBotConfig) : option Role.t :=
  match autorole_id record with
  | Some role_id => get_role record role_id
  | None => None
  end.

Record Button : Type := mkButton { label : string; disabled : bool }.

Record Embed : Type := mkEmbed {
  title : string;
  color : Z;
  description : option string
}.

(** ** Calls observed from outside *)

Inductive Event : Type :=
| EvGetGuildBotConfig (guild_id : Z)
| EvAddConfigKey (guild_id : Z) (key : string) (value : Z)
| EvRemoveConfigKey (guild_id : Z) (key : string)
| EvInvalidate (guild_id : Z)
| EvRequestGetPrefixes (guild_id : Z)
| EvBulkUpsertGuildPrefixes (guild_id : Z) (prefixes : list string)
| EvDefer
| EvPromptConvert (content : string)
| EvSendMessage (content : string)
| EvSendModal
| EvModalWait
| EvFollowupSend (content : string) (ephemeral : bool)
| EvFollowupSendView (options : list string)
| EvSelectWait
| EvDeleteMessage
| EvUpdate.

Global Instance Event_eq_dec : EqDecision Event.
Proof. solve_decision. Defined.

(** The calls that write to backing storage. *)
Definition is_write (ev : Event) : bool :=
  match ev with
  | EvAddConfigKey _ _ _ | EvRemoveConfigKey _ _
  | EvBulkUpsertGuildPrefixes _ _ => true
  | _ => false
  end.

Definition writes (evs : list Event) : list Event := List.filter is_write evs.

(** ** The handlers' monad *)

Record World (E : Type) : Type := mkWorld {
  backend : E;
  events : list Event
}.
Arguments mkWorld {E} backend events.
Arguments backend {E} w.
Arguments events {E} w.

Definition M (E A : Type) : Type := World E → result A * World E.

Global Instance M_ret {E} : MRet (M E) := λ A a w, (Ok a, w).

Global Instance M_bind {E} : MBind (M E) := λ A B k m w,
  match m w with
  | (Ok a, w') => k a w'
  | (Raise e, w') => (Raise e, w')
  end.

(** [try: m except handler]: an exception the handler names is replaced by
    the handler's program, run in the world the failed call left. *)
Definition try_except {E A} (m : M E A) (handler : exn → option (M E A)) : M E A :=
  λ w,
    match m w with
    | (Ok a, w') => (Ok a, w')
    | (Raise e, w') =>
        match handler e with
        | Some k => k w'
        | None => (Raise e, w')
        end
    end.

Definition raise {E A} (e : exn) : M E A := λ w, (Raise e, w).

(** A call into the backend: it is recorded, then the backend answers. *)
Definition call {E A} (ev : Event) (f : E → result A * E) : M E A :=
  λ w,
    let (r, e') := f (backend w) in
    (r, mkWorld e' (events w ++ [ev])).

(** A call to Discord (a response, a prompt, a view): recorded only; in
    this model it does not fail. *)
Definition ui {E} (ev : Event) : M E unit :=
  λ w, (Ok tt, mkWorld (backend w) (events w ++ [ev])).

(** ** The collaborators of the menus

    None of them is defined in ui.py: [ctx.bot.api] (the REST client),
    [ctx.cog] (the Configuration cog) and the cached
    [ctx.bot.get_guild_bot_config] with its [invalidate].  They are taken
    as parameters: each may answer or raise, and may change the backend. *)
Record Api (E : Type) : Type := mkApi {
  (** [api.request("GET", f"/guilds/{guild_id}/prefixes")] *)
  request_get_prefixes : Z → E → result (list string) * E;
  bulk_upsert_guild_prefixes : Z → list string → E → result unit * E;
  add_config_key : Z → string → Z → E → result unit * E;
  remove_config_key : Z → string → E → result unit * E;
  get_guild_bot_config : Z → E → result GuildBotConfig * E;
  invalidate : Z → E → result unit * E
}.
Arguments request_get_prefixes {E} a guild_id e.
Arguments bulk_upsert_guild_prefixes {E} a guild_id prefixes e.
Arguments add_config_key {E} a guild_id key value e.
Arguments remove_config_key {E} a guild_id key e.
Arguments get_guild_bot_config {E} a guild_id e.
Arguments invalidate {E} a guild_id e.

(** ** Python list operations used by the menus *)

(** [l.remove(x)]: drops the first occurrence; [None] is the [ValueError]
    of an absent [x]. *)
Fixpoint list_remove {A} `{EqDecision A} (x : A) (l : list A) : option (list A) :=
  match l with
  | [] => None
  | y :: l' =>
      if decide (y = x) then Some l'
      else match list_remove x l' with
           | Some r => Some (y :: r)
           | None => None
           end
  end.

(** [x in l] *)
Definition list_contains (x : string) (l : list string) : bool :=
  bool_decide (x ∈ l).

(** [sep.join(l)] *)
Fixpoint join (sep : string) (l : list string) : string :=
  match l with
  | [] => ""
  | [x] => x
  | x :: l' => x ++ sep ++ join sep l'
  end.

Definition newline : string := String "010"%char EmptyString.

(** The double quote character. *)
Definition dquote : string := String "034"%char EmptyString.

(** ** class AutoRole(UpdateableMenu, ExitableMenu) *)

Module AutoRole.

(** The two buttons of the menu object. *)
Record view : Type := mkView {
  add_autorole_button_ : Button;
  remove_autorole_button_ : Button
}.

(** The buttons as the decorators declare them. *)
Definition initial : view :=
  mkView (mkButton "Add an autorole" false) (mkButton "Remove autorole" false).

Definition set_add_label (s : string) (self : view) : view :=
  mkView (mkButton s (disabled (add_autorole_button_ self)))
         (remove_autorole_button_ self).

Definition set_remove_disabled (b : bool) (self : view) : view :=
  mkView (add_autorole_button_ self)
         (mkButton (label (remove_autorole_button_ self)) b).

(** The three descriptions [format_initial_message] writes. *)
Definition healthy_description (role : Role.t) : string :=
  "Members will be assigned " ++ Role.mention role
  ++ " (" ++ pretty (Role.id role) ++ ") when they"
  ++ " join this server.".

Definition unset_description : string :=
  "This server has not setup an autorole yet.".

Definition broken_description : string :=
  "The autorole that was configured seems to be deleted! You can set another up by"
  ++ " pressing the " ++ dquote ++ "Change autorole" ++ dquote ++ " button.".

Definition prompt_content : string :=
  "What role would you like to setup? You can send the ID, name, or mention of a role.".

Section handlers.
Context {E : Type} (api : Api E).

Definition format_initial_message (self : view) (guild_id : Z)
  : M E (Embed * view) :=
  record ← call (EvGetGuildBotConfig guild_id) (get_guild_bot_config api guild_id);
  let embed := mkEmbed "Auto Role Configuration" 0xf74b06 None in
  match autorole record with
  | Some role =>
      let self := set_add_label "Change autorole" self in
      let self := set_remove_disabled false self in
      mret (mkEmbed (title embed) (color embed) (Some (healthy_description role)),
            self)
  | None =>
      match autorole_id record with
      | None =>
          let self := set_remove_disabled true self in
          let self := set_add_label "Add an autorole" self in
          mret (mkEmbed (title embed) (color embed) (Some unset_description),
                self)
      | Some _ =>
          let self := set_remove_disabled false self in
          let self := set_add_label "Change autorole" self in
          mret (mkEmbed (title embed) (color embed) (Some broken_description),
                self)
      end
  end.

(** [prompt_role] is what [self.prompt_convert(interaction, content,
    Role())] resolves to: a role, or nothing when the prompt is
    cancelled or times out. *)
Definition add_autorole_button (guild_id : Z) (prompt_role : option Role.t)
  : M E unit :=
  ui EvDefer;;
  let content := prompt_content in
  ui (EvPromptConvert content);;
  match prompt_role with
  | None => mret tt
  | Some role =>
      call (EvAddConfigKey guild_id "autorole" (Role.id role))
           (add_config_key api guild_id "autorole" (Role.id role));;
      call (EvInvalidate guild_id) (invalidate api guild_id)
  end.

Definition remove_autorole_button (guild_id : Z) : M E unit :=
  call (EvRemoveConfigKey guild_id "autorole")
       (remove_config_key api guild_id "autorole");;
  call (EvInvalidate guild_id) (invalidate api guild_id);;
  ui (EvSendMessage "Successfully removed the server's autorole");;
  ui EvUpdate.

End handlers.
End AutoRole.

(** ** class PrefixModal(discord.ui.Modal, title="Add a prefix") *)

Module PrefixModal.

Record TextInput : Type := mkTextInput {
  input_label : string;
  max_length : nat;
  min_length : nat
}.

Definition prefix : TextInput := mkTextInput "Prefix" 50 1.


End PrefixModal.

(** ** What a modal holds after [modal.wait()] *)

(** [len(s)] of Python for a UTF-8 string: its code points, that is its
    bytes that are not continuation bytes (0x80 to 0xBF). *)
Definition is_continuation (c : ascii) : bool :=
  ((128 <=? N_of_ascii c) && (N_of_ascii c <? 192))%N.

Fixpoint characters (s : string) : nat :=
  match s with
  | EmptyString => 0
  | String c s' => ((if is_continuation c then 0 else 1) + characters s')%nat
  end.

Module ModalSubmission.

(** [discord.ui.TextInput.value] once [modal.wait()] has returned.
    [typed] is what the user did: [Some text] for a text typed and sent,
    [None] for a dismissal or a time-out.  Discord takes the submission
    only when the length of the text is within the [min_length] and
    [max_length] the input declares; otherwise nothing is submitted and
    the value stays the empty string. *)
Definition value (ti : PrefixModal.TextInput) (typed : option string) : string :=
  match typed with
  | Some text =>
      if ((PrefixModal.min_length ti <=? characters text)
          && (characters text <=? PrefixModal.max_length ti))%nat
      then text else ""
  | None => ""
  end.

End ModalSubmission.

(** ** SelectSubMenu *)

Module SelectSubMenu.

(** Modelled from the spec: [SelectSubMenu] is defined in the lightning
    package, outside ui.py.  Section 4.4 of the specification: a select
    prompt presents a bounded set of discrete choices for single selection
    and produces the chosen value, or nothing when it is cancelled or
    times out.  [wanted] is the value the user is after: one that is not
    among the options cannot be chosen, and the prompt resolves with
    nothing. *)
Definition values (options : list string) (wanted : option string) : list string :=
  match wanted with
  | Some v => if bool_decide (v ∈ options) then [v] else []
  | None => []
  end.

End SelectSubMenu.

(** ** class Prefix(UpdateableMenu, ExitableMenu) *)

Module Prefix.

Record view : Type := mkView {
  add_prefix_ : Button;
  remove_prefix_ : Button
}.

Definition initial : view :=
  mkView (mkButton "Add prefix" false) (mkButton "Remove prefix" false).

Definition limit_message : string :=
  "You cannot have more than 5 custom prefixes!".

Definition duplicate_message : string :=
  "This prefix is already registered!".

Section handlers.
Context {E : Type} (api : Api E).

Definition get_prefixes (guild_id : Z) : M E (list string) :=
  try_except
    (call (EvRequestGetPrefixes guild_id) (request_get_prefixes api guild_id))
    (λ e, match e with
          | NotFound => Some (mret [])
          | _ => None
          end).

Definition format_initial_message (guild_id : Z) : M E string :=
  config ← get_prefixes guild_id;
  match config with
  | [] => mret "No custom prefixes are currently set up!"
  | _ =>
      let pfxs := join newline (map (λ pfx, "• `" ++ pfx ++ "`") config) in
      mret ("**Prefix Configuration**:" ++ newline ++ pfxs)
  end.

Definition update_components (self : view) (guild_id : Z) : M E view :=
  config ← get_prefixes guild_id;
  let self :=
    mkView (mkButton (label (add_prefix_ self))
                     (bool_decide (5 < length config)%nat))
           (remove_prefix_ self) in
  let self :=
    mkView (add_prefix_ self)
           (mkButton (label (remove_prefix_ self))
                     (match config with [] => true | _ => false end)) in
  mret self.

(** [modal_value] is [modal.prefix.value] after [modal.wait()]. *)
Definition add_prefix (guild_id : Z) (modal_value : string) : M E unit :=
  prefixes ← get_prefixes guild_id;
  if bool_decide (5 < length prefixes)%nat then
    ui (EvSendMessage limit_message)
  else
    ui EvSendModal;;
    ui EvModalWait;;
    if bool_decide (modal_value = "") then mret tt
    else if list_contains modal_value prefixes then
      ui (EvFollowupSend duplicate_message true)
    else
      let prefixes := (prefixes ++ [modal_value])%list in
      call (EvBulkUpsertGuildPrefixes guild_id prefixes)
           (bulk_upsert_guild_prefixes api guild_id prefixes).

(** [select_values] is [select.values] after [select.wait()]. *)
Definition remove_prefix (guild_id : Z) (select_values : list string)
  : M E unit :=
  prefixes ← get_prefixes guild_id;
  ui EvDefer;;
  ui (EvFollowupSendView prefixes);;
  ui EvSelectWait;;
  ui EvDeleteMessage;;
  match select_values with
  | [] => mret tt
  | v :: _ =>
      match list_remove v prefixes with
      | None => raise ValueError
      | Some prefixes =>
          call (EvBulkUpsertGuildPrefixes guild_id prefixes)
               (bulk_upsert_guild_prefixes api guild_id prefixes)
      end
  end.

End handlers.
End Prefix.

(** ** An in-memory backend

    Modelled from the spec: the backing API, the Configuration cog and the
    cached [get_guild_bot_config] are outside ui.py.  This store follows
    sections 3, 4.1 and 6 of the specification: a prefix list per guild
    whose absence is the API's not-found; single-field writes of the
    autorole; a cache of records filled on a miss and emptied only by
    [invalidate]; every backing call fails while the storage is down. *)

Module Store.

(** Modelled from the spec: what the backing storage and the cache hold
    (section 3), and whether the storage answers (section 7). *)
Record t : Type := mk {
  prefixes : gmap Z (list string);
  autoroles : gmap Z Z;
  roles : gmap Z Role.t;
  cache : gmap Z GuildBotConfig;
  online : bool
}.

(** Modelled from the spec: no guild has written anything yet. *)
Definition empty : t := mk ∅ ∅ ∅ ∅ true.

(** Modelled from the spec: the record of a guild as storage has it; a
    guild without configuration gets a record with nothing set (4.1). *)
Definition fetch (guild_id : Z) (s : t) : GuildBotConfig :=
  mkConfig (autoroles s !! guild_id) (λ role_id, roles s !! role_id).

(** Modelled from the spec: the read of a guild's prefixes, not-found
    for a guild with none stored (section 6). *)
Definition request_get_prefixes (guild_id : Z) (s : t) : result (list string) * t :=
  if online s then
    match prefixes s !! guild_id with
    | Some l => (Ok l, s)
    | None => (Raise NotFound, s)
    end
  else (Raise StorageError, s).

(** Modelled from the spec: bulk replace of a guild's prefixes
    (section 6). *)
Definition bulk_upsert_guild_prefixes (guild_id : Z) (l : list string) (s : t)
  : result unit * t :=
  if online s then
    (Ok tt, mk (<[guild_id := l]> (prefixes s)) (autoroles s) (roles s) (cache s) (online s))
  else (Raise StorageError, s).

(** Modelled from the spec: field-level upsert (section 6); the cache is
    left to the caller. *)
Definition add_config_key (guild_id : Z) (key : string) (value : Z) (s : t)
  : result unit * t :=
  if online s then
    if bool_decide (key = "autorole") then
      (Ok tt, mk (prefixes s) (<[guild_id := value]> (autoroles s)) (roles s) (cache s) (online s))
    else (Ok tt, s)
  else (Raise StorageError, s).

(** Modelled from the spec: field-level delete (section 6). *)
Definition remove_config_key (guild_id : Z) (key : string) (s : t)
  : result unit * t :=
  if online s then
    if bool_decide (key = "autorole") then
      (Ok tt, mk (prefixes s) (delete guild_id (autoroles s)) (roles s) (cache s) (online s))
    else (Ok tt, s)
  else (Raise StorageError, s).

(** Modelled from the spec: the cached read (4.1): the cached record if
    there is one, else a fetch whose result is cached. *)
Definition get_guild_bot_config (guild_id : Z) (s : t) : result GuildBotConfig * t :=
  match cache s !! guild_id with
  | Some record => (Ok record, s)
  | None =>
      if online s then
        let record := fetch guild_id s in
        (Ok record,
         mk (prefixes s) (autoroles s) (roles s) (<[guild_id := record]> (cache s)) (online s))
      else (Raise StorageError, s)
  end.

(** Modelled from the spec: explicit invalidation evicts the entry
    (section 3). *)
Definition invalidate (guild_id : Z) (s : t) : result unit * t :=
  (Ok tt, mk (prefixes s) (autoroles s) (roles s) (delete guild_id (cache s)) (online s)).

Definition api : Api t :=
  mkApi t request_get_prefixes bulk_upsert_guild_prefixes add_config_key
        remove_config_key get_guild_bot_config invalidate.

(** A fresh world over a store: nothing has been called yet. *)
Definition world (s : t) : World t := mkWorld s [].

End Store.

(** ** The lock of a menu session *)

Module MenuSession.

Inductive Control : Type :=
| AddAutorole
| RemoveAutorole
| AddPrefix
| RemovePrefix.

Global Instance Control_eq_dec : EqDecision Control.
Proof. solve_decision. Defined.

(** The handlers that ui.py decorates with [@lock_when_pressed]:
    [add_autorole_button], [add_prefix] and [remove_prefix].
    [remove_autorole_button] carries the button decorator only. *)
Definition lock_when_pressed (c : Control) : bool :=
  match c with
  | AddAutorole => true
  | RemoveAutorole => false
  | AddPrefix => true
  | RemovePrefix => true
  end.

Record t : Type := mk {
  locked : bool;
  in_flight : list Control
}.

Definition idle : t := mk false [].

(** Modelled from the spec: the decorator itself is defined in
    lightning.ui, outside ui.py.  Sections 4.2 and 9 of the specification
    describe it as a mutual-exclusion flag owned by the session and
    checked before any control activation is accepted: an activation that
    finds the flag set is rejected.  A decorated handler holds the flag
    from its activation to its completion. *)
Definition activate (c : Control) (s : t) : option t :=
  if locked s then None
  else Some (mk (lock_when_pressed c) (c :: in_flight s)).

(** Modelled from the spec: completion of a handler releases the flag if
    the handler held it (sections 4.2 and 5). *)
Definition complete (c : Control) (s : t) : t :=
  mk (if lock_when_pressed c then false else locked s)
     (default (in_flight s) (list_remove c (in_flight s))).

(** The sessions that activations and completions can produce. *)
Inductive reachable : t → Prop :=
| reachable_idle : reachable idle
| reachable_activate s c s' :
    reachable s → activate c s = Some s' → reachable s'
| reachable_complete s c :
    reachable s → c ∈ in_flight s → reachable (complete c s).

(** The decorated handlers among those in flight. *)
Definition holders (s : t) : list Control :=
  List.filter lock_when_pressed (in_flight s).

End MenuSession.

(** ** Sample data *)

Definition five : list string := ["!"; "?"; "."; "$"; "%"].

Definition store5 : Store.t := Store.mk {[ 1 := five ]} ∅ ∅ ∅ true.

Definition role42 : Role.t := Role.mk 42 "<@&42>".

(** A text of 51 characters. *)
Definition long_prefix : string :=
  "aaaaaaaaaaaaaaaaaaaaaaaaaaaaaaaaaaaaaaaaaaaaaaaaaaa".

(** Guild 1 has a cached record and the storage is down. *)
Definition store_down : Store.t :=
  Store.mk ∅ ∅ {[ 42 := role42 ]} {[ 1 := Store.fetch 1 Store.empty ]} false.


(** Adding the given values one after another through the menu. *)
Definition add_all (guild_id : Z) (values : list string) (w : World Store.t)
  : World Store.t :=
  foldl (λ w v, snd (Prefix.add_prefix Store.api guild_id v w)) w values.

(** ** Process bootstrap (lightning/cli/main.py)

    [init_logging], [launch_bot], [main] and [docker_run].  The file
    system, the shell, Sentry, the two connection pools, the migrator and
    the bot itself are collaborators; the logging configuration is state
    the module changes and is modelled as such. *)

Module Cli.

(** The exceptions [launch_bot] tells apart:
    [asyncpg.PostgresConnectionError], [redis.ConnectionError], and
    anything else. *)
Inductive exn : Type :=
| PostgresConnectionError
| RedisConnectionError
| OtherError.

Inductive result (A : Type) : Type :=
| Ok (a : A)
| Raise (e : exn).
Arguments Ok {A} a.
Arguments Raise {A} e.

Global Instance exn_eq_dec : EqDecision exn.
Proof. solve_decision. Defined.

(** [lightning.config.Config] is declared outside main.py; these are the
    settings main.py reads from it.  A setting that may be absent is an
    option. *)
Record RedisConfig : Type := mkRedis {
  host : string;
  port : Z;
  db : Z;
  password : option string
}.

Record Tokens : Type := mkTokens {
  discord : string;
  sentry : option string;
  postgres_uri : string;
  redis : RedisConfig
}.

Record BotConfig : Type := mkBot {
  beta_prefix : option string;
  message_cache_max : option Z;
  owner_ids : option (list Z);
  game : option string
}.

Record LoggingConfig : Type := mkLoggingConfig { console : bool }.

Record Config : Type := mkConfig {
  tokens : Tokens;
  bot : BotConfig;
  logging : LoggingConfig
}.

(** Python's truth value of an optional string: [None] and the empty
    string are false. *)
Definition truthy_str (o : option string) : bool :=
  match o with
  | Some s => negb (bool_decide (s = ""))
  | None => false
  end.

(** The values put into the keyword arguments of [LightningBot]. *)
Inductive PyValue : Type :=
| PyNone
| PyInt (n : Z)
| PyIntList (l : list Z)
| PyGame (name : string).

Global Instance PyValue_eq_dec : EqDecision PyValue.
Proof. solve_decision. Defined.

Definition py_option_int (o : option Z) : PyValue :=
  match o with Some n => PyInt n | None => PyNone end.

(** *** The logging configuration *)

Inductive Handler : Type :=
| RotatingFileHandler (filename mode : string) (maxBytes backupCount : Z)
    (encoding formatter level : option string)
| RichHandler (level : string).

Record Logger : Type := mkLogger {
  handlers : list Handler;
  level : option string
}.

Record Logging : Type := mkLogging {
  root : Logger;
  discord_logger : Logger;
  shut_down : bool
}.

Definition log_format : string :=
  "[%(asctime)s] %(name)s (%(filename)s:%(lineno)d) %(levelname)s: %(message)s".

Definition max_file_size : Z := 1000 * 1000 * 8.

Definition addHandler (h : Handler) (lg : Logger) : Logger :=
  mkLogger (handlers lg ++ [h]) (level lg).

Definition setLevel (lvl : string) (lg : Logger) : Logger :=
  mkLogger (handlers lg) (Some lvl).

(** The body of [init_logging] up to its [yield]. *)
Definition setup_logging (config : Config) (st : Logging) : Logging :=
  let log := root st in
  let log :=
    match handlers log with
    | [] => log
    | _ => mkLogger [] (level log)
    end in
  let file_handler :=
    RotatingFileHandler "lightning.log" "a" max_file_size 10 None
      (Some log_format) (Some "INFO") in
  let log := setLevel "INFO" log in
  let log := addHandler file_handler log in
  let discord_log := discord_logger st in
  let db_fh :=
    RotatingFileHandler "discord-debug.log" "w" max_file_size 5 (Some "utf-8")
      (Some log_format) None in
  let discord_log := setLevel "DEBUG" discord_log in
  let discord_log := addHandler db_fh discord_log in
  let log := if console (logging config) then addHandler (RichHandler "INFO") log else log in
  mkLogging log discord_log (shut_down st).

(** [logging.shutdown()] *)
Definition shutdown (st : Logging) : Logging :=
  mkLogging (root st) (discord_logger st) true.

(** *** Calls observed from outside *)

Inductive Event : Type :=
| EvMakedirs (path : string)
| EvRunInShell (command : string)
| EvSentryInit (dsn environment release : string)
| EvLightningBot (kwargs : gmap string PyValue)
| EvSetCommitHash (commit : string)
| EvCreatePool (uri : string) (command_timeout : Z)
| EvRedis (host : string) (port db : Z) (password : option string)
| EvPing
| EvLogException (message : string) (e : exn)
| EvStart (token : string)
| EvConfig
| EvEcho (message : string)
| EvMigrator
| EvConnect (uri : string)
| EvApplyRevisions
| EvConnClose.

Global Instance Event_eq_dec : EqDecision Event.
Proof. solve_decision. Defined.

(** *** The monad *)

Record World (E : Type) : Type := mkWorld {
  backend : E;
  logging_state : Logging;
  events : list Event
}.
Arguments mkWorld {E} backend logging_state events.
Arguments backend {E} w.
Arguments logging_state {E} w.
Arguments events {E} w.

Definition M (E A : Type) : Type := World E → result A * World E.

Global Instance M_ret {E} : MRet (M E) := λ A a w, (Ok a, w).

Global Instance M_bind {E} : MBind (M E) := λ A B k m w,
  match m w with
  | (Ok a, w') => k a w'
  | (Raise e, w') => (Raise e, w')
  end.

Definition try_except {E A} (m : M E A) (handler : exn → option (M E A)) : M E A :=
  λ w,
    match m w with
    | (Ok a, w') => (Ok a, w')
    | (Raise e, w') =>
        match handler e with
        | Some k => k w'
        | None => (Raise e, w')
        end
    end.

(** [try: m finally: cleanup], for a cleanup that does not fail. *)
Definition try_finally {E A} (m : M E A) (cleanup : World E → World E) : M E A :=
  λ w, let (r, w') := m w in (r, cleanup w').

(** A call that may fail: recorded, then answered by the collaborator. *)
Definition call {E A} (ev : Event) (f : E → result A * E) : M E A :=
  λ w,
    let (r, e') := f (backend w) in
    (r, mkWorld e' (logging_state w) (events w ++ [ev])).

(** A call that is recorded only; in this model it does not fail. *)
Definition ext {E} (ev : Event) : M E unit :=
  λ w, (Ok tt, mkWorld (backend w) (logging_state w) (events w ++ [ev])).

Definition update_logging {E} (f : Logging → Logging) (w : World E) : World E :=
  mkWorld (backend w) (f (logging_state w)) (events w).

(** *** The collaborators

    [run_in_shell] stands for [(await run_in_shell(cmd))[0].strip()], the
    stripped standard output; [sentry_init] for [sentry_sdk.init], which
    raises on a DSN it cannot parse; [new_bot] for the constructor
    [LightningBot(config, **kwargs)]; [migrator_uri] for
    [m.config["postgres_uri"]]. *)
Record Sys (E : Type) : Type := mkSys {
  path_exists : string → E → bool;
  run_in_shell : string → E → string * E;
  sentry_init : string → string → string → E → result unit * E;
  new_bot : gmap string PyValue → E → result unit * E;
  create_pool : string → Z → E → result unit * E;
  redis_ping : E → result unit * E;
  bot_start : string → E → result unit * E;
  load_config : E → result Config * E;
  migrator_uri : E → string;
  connect : string → E → result unit * E;
  apply_revisions : E → result unit * E;
  conn_close : E → result unit * E
}.
Arguments path_exists {E} s path e.
Arguments run_in_shell {E} s command e.
Arguments sentry_init {E} s dsn environment release e.
Arguments new_bot {E} s kwargs e.
Arguments create_pool {E} s uri command_timeout e.
Arguments redis_ping {E} s e.
Arguments bot_start {E} s token e.
Arguments load_config {E} s e.
Arguments migrator_uri {E} s e.
Arguments connect {E} s uri e.
Arguments apply_revisions {E} s e.
Arguments conn_close {E} s e.

(** The keyword arguments [launch_bot] builds for [LightningBot]:
    [owner_ids] and [activity] are added only for a non-empty setting. *)
Definition bot_kwargs (config : Config) : gmap string PyValue :=
  let kwargs : gmap string PyValue :=
    {[ "max_messages" := py_option_int (message_cache_max (bot config)) ]} in
  let kwargs :=
    match owner_ids (bot config) with
    | Some (id :: ids) => <[ "owner_ids" := PyIntList (id :: ids) ]> kwargs
    | _ => kwargs
    end in
  let kwargs :=
    match game (bot config) with
    | Some name =>
        if bool_decide (name = "") then kwargs
        else <[ "activity" := PyGame name ]> kwargs
    | None => kwargs
    end in
  kwargs.

Definition postgres_failure_message : string :=
  "Could not set up PostgreSQL. Exiting...".

Definition redis_failure_message : string :=
  "Could not setup redis pool. Exiting...".

Section programs.
Context {E : Type} (sys : Sys E).

(** [with init_logging(config): body] *)
Definition init_logging {A} (config : Config) (body : M E A) : M E A :=
  try_finally
    (λ w, body (update_logging (setup_logging config) w))
    (update_logging shutdown).

(** [os.path.exists(path)] *)
Definition os_path_exists (path : string) : M E bool :=
  λ w, (Ok (path_exists sys path (backend w)), w).

(** [(await run_in_shell(command))[0].strip()] *)
Definition shell_output (command : string) : M E string :=
  λ w,
    let (out, e') := run_in_shell sys command (backend w) in
    (Ok out, mkWorld e' (logging_state w) (events w ++ [EvRunInShell command])).

(** [launch_bot] up to [bot.commit_hash = commit]: everything it does
    before it connects. *)
Definition prepare_bot (config : Config) : M E unit :=
  exists_ ← os_path_exists "config";
  (if exists_ : bool then mret tt else ext (EvMakedirs "config"));;
  let sentry_dsn := sentry (tokens config) in
  commit ← shell_output "git rev-parse HEAD";
  match sentry_dsn with
  | Some sentry_dsn =>
      let env := if truthy_str (beta_prefix (bot config)) then "dev" else "prod" in
      call (EvSentryInit sentry_dsn env commit) (sentry_init sys sentry_dsn env commit)
  | None => mret tt
  end;;
  let kwargs := bot_kwargs config in
  call (EvLightningBot kwargs) (new_bot sys kwargs);;
  ext (EvSetCommitHash commit).

Definition launch_bot (config : Config) : M E unit :=
  prepare_bot config;;
  connected ←
    try_except
      (call (EvCreatePool (postgres_uri (tokens config)) 60)
            (create_pool sys (postgres_uri (tokens config)) 60);;
       ext (EvRedis (host (redis (tokens config))) (port (redis (tokens config)))
                    (db (redis (tokens config))) (password (redis (tokens config))));;
       call EvPing (redis_ping sys);;
       mret true)
      (λ e, match e with
            | PostgresConnectionError =>
                Some (ext (EvLogException postgres_failure_message e);; mret false)
            | RedisConnectionError =>
                Some (ext (EvLogException redis_failure_message e);; mret false)
            | OtherError => None
            end);
  if connected : bool
  then call (EvStart (discord (tokens config))) (bot_start sys (discord (tokens config)))
  else mret tt.

(** [invoked_subcommand] is [ctx.invoked_subcommand]. *)
Definition main (invoked_subcommand : option string) : M E unit :=
  match invoked_subcommand with
  | None =>
      config ← call EvConfig (load_config sys);
      init_logging config (launch_bot config)
  | Some _ => mret tt
  end.

Definition docker_run : M E unit :=
  ext (EvEcho "Applying migrations...");;
  ext EvMigrator;;
  uri ← (λ w, (Ok (migrator_uri sys (backend w)), w));
  call (EvConnect uri) (connect sys uri);;
  call EvApplyRevisions (apply_revisions sys);;
  call EvConnClose (conn_close sys);;
  config ← call EvConfig (load_config sys);
  init_logging config (launch_bot config).

End programs.

(** How [launch_bot] ends when connecting raised [e], in backend [st]
    with the calls [evs] made: the two connection errors are logged and
    the function returns, anything else goes on to the caller. *)
Definition connection_failed {E} (e : exn) (st : E) (lg : Logging) (evs : list Event)
  : result unit * World E :=
  match e with
  | PostgresConnectionError =>
      (Ok tt, mkWorld st lg (evs ++ [EvLogException postgres_failure_message e]))
  | RedisConnectionError =>
      (Ok tt, mkWorld st lg (evs ++ [EvLogException redis_failure_message e]))
  | OtherError => (Raise e, mkWorld st lg evs)
  end.

(** The calls made since [w], given the later world [w']. *)
Definition since {E} (w w' : World E) : list Event :=
  drop (length (events w)) (events w').

(** *** A scripted system

    Every call answers as the script says and leaves the script as it
    is. *)
Record Script : Type := mkScript {
  script_dir_exists : bool;
  script_commit : string;
  script_pool : result unit;
  script_ping : result unit;
  script_start : result unit;
  script_config : result Config;
  script_connect : result unit;
  script_apply : result unit;
  script_sentry : result unit;
  script_bot : result unit
}.

Definition scripted : Sys Script :=
  mkSys Script
    (λ _ s, script_dir_exists s)
    (λ _ s, (script_commit s, s))
    (λ _ _ _ s, (script_sentry s, s))
    (λ _ s, (script_bot s, s))
    (λ _ _ s, (script_pool s, s))
    (λ s, (script_ping s, s))
    (λ _ s, (script_start s, s))
    (λ s, (script_config s, s))
    (λ _, "postgres://migrator")
    (λ _ s, (script_connect s, s))
    (λ s, (script_apply s, s))
    (λ s, (Ok tt, s)).

Definition no_logging : Logging := mkLogging (mkLogger [] None) (mkLogger [] None) false.

Definition fresh (s : Script) : World Script := mkWorld s no_logging [].

Definition sample_config : Config :=
  mkConfig
    (mkTokens "token" (Some "https://key@sentry.example/1") "postgres://db"
       (mkRedis "localhost" 6379 0 None))
    (mkBot (Some "b!") (Some 1000) (Some []) (Some "with settings"))
    (mkLoggingConfig true).

(** The pool is created, the ping fails with a Redis connection error. *)
Definition script_redis_down : Script :=
  mkScript true "abc" (Ok tt) (Raise RedisConnectionError) (Ok tt)
    (Ok sample_config) (Ok tt) (Ok tt) (Ok tt) (Ok tt).

(** The connection for the migrations is refused. *)
Definition script_no_database : Script :=
  mkScript true "abc" (Ok tt) (Ok tt) (Ok tt) (Ok sample_config)
    (Raise PostgresConnectionError) (Ok tt) (Ok tt) (Ok tt).

(** Sentry refuses the DSN. *)
Definition script_bad_dsn : Script :=
  mkScript true "abc" (Ok tt) (Ok tt) (Ok tt) (Ok sample_config)
    (Ok tt) (Ok tt) (Raise OtherError) (Ok tt).

End Cli.

(** [x] occurs in [s] as a contiguous piece. *)
Definition occurs_in (x s : string) : Prop :=
  ∃ before after : string, s = before ++ x ++ after.

(** The line [format_initial_message] of the prefix menu writes for one
    prefix. *)
Definition bullet_line (pfx : string) : string := "• `" ++ pfx ++ "`".

(** * Properties *)

Open Scope list_scope.

(** Membership in an explicit list, taken apart; the alternatives that
    name a different constructor are closed. *)
Ltac split_in H :=
  repeat (apply elem_of_cons in H as [H|H]; [try discriminate H |]);
  try (apply elem_of_nil in H; destruct H).

(** ** Running the monad *)

Section monad_facts.
Context {E : Type}.

Lemma bind_ok {A B} (m : M E A) (k : A → M E B) w a w1 :
  m w = (Ok a, w1) → (m ≫= k) w = k a w1.
Proof. intros H. unfold mbind, M_bind. by rewrite H. Qed.

Lemma bind_raise {A B} (m : M E A) (k : A → M E B) w e w1 :
  m w = (Raise e, w1) → (m ≫= k) w = (Raise e, w1).
Proof. intros H. unfold mbind, M_bind. by rewrite H. Qed.

Lemma ui_then {B} ev (k : M E B) w :
  (ui ev;; k) w = k (mkWorld (backend w) (events w ++ [ev])).
Proof. reflexivity. Qed.

Lemma ui_run ev (w : World E) :
  ui ev w = (Ok tt, mkWorld (backend w) (events w ++ [ev])).
Proof. reflexivity. Qed.

Lemma call_run {A} ev (f : E → result A * E) w :
  call ev f w = (fst (f (backend w)), mkWorld (snd (f (backend w))) (events w ++ [ev])).
Proof. unfold call. by destruct (f (backend w)). Qed.

End monad_facts.

(** ** Python's [remove] and [in] *)

Lemma list_remove_None {A} `{EqDecision A} (x : A) (l : list A) :
  list_remove x l = None ↔ x ∉ l.
Proof.
  induction l as [|y l IH]; simpl.
  - split; [intros _; apply not_elem_of_nil | done].
  - destruct (decide (y = x)) as [->|Hne].
    + split; [done | intros Hn; exfalso; apply Hn; left].
    + destruct (list_remove x l) as [r|] eqn:Hr.
      * split; [done |].
        intros Hn. assert (x ∉ l) as Hl by (intros Hin; apply Hn; by right).
        apply IH in Hl. discriminate.
      * split; [| done].
        intros _ Hin. apply elem_of_cons in Hin as [->|Hin]; [done |].
        by apply (proj1 IH).
Qed.

Lemma list_remove_is_Some {A} `{EqDecision A} (x : A) (l : list A) :
  x ∈ l → is_Some (list_remove x l).
Proof.
  intros Hin. destruct (list_remove x l) as [r|] eqn:Hr; [by eexists |].
  apply list_remove_None in Hr. done.
Qed.

Lemma list_remove_length {A} `{EqDecision A} (x : A) (l r : list A) :
  list_remove x l = Some r → length l = S (length r).
Proof.
  revert r. induction l as [|y l IH]; intros r; simpl; [done |].
  destruct (decide (y = x)); [by intros [= ->] |].
  destruct (list_remove x l) as [r'|]; [| done].
  intros [= <-]. simpl. f_equal. by apply IH.
Qed.

Lemma list_contains_true (x : string) (l : list string) :
  list_contains x l = true ↔ x ∈ l.
Proof. unfold list_contains. apply bool_decide_eq_true. Qed.

(** ** The prefix menu *)

Section prefix_facts.
Context {E : Type} (api : Api E).

(** What [get_prefixes] does with each answer of the API. *)
Lemma get_prefixes_run guild_id (w : World E) :
  Prefix.get_prefixes api guild_id w =
  let w1 := mkWorld (snd (request_get_prefixes api guild_id (backend w)))
                    (events w ++ [EvRequestGetPrefixes guild_id]) in
  match fst (request_get_prefixes api guild_id (backend w)) with
  | Ok l => (Ok l, w1)
  | Raise NotFound => (Ok [], w1)
  | Raise e => (Raise e, w1)
  end.
Proof.
  unfold Prefix.get_prefixes, try_except. rewrite call_run.
  by destruct (request_get_prefixes api guild_id (backend w)) as [[l|[]] e'].
Qed.

(** [get_prefixes] makes one call, the read. *)
Lemma get_prefixes_events guild_id (w : World E) :
  events (snd (Prefix.get_prefixes api guild_id w)) =
  events w ++ [EvRequestGetPrefixes guild_id].
Proof.
  rewrite get_prefixes_run. simpl.
  by destruct (request_get_prefixes api guild_id (backend w)) as [[l|[]] e'].
Qed.

(** The four ways through [add_prefix], once the list is fetched. *)
Lemma add_prefix_run guild_id v (w w1 : World E) l :
  Prefix.get_prefixes api guild_id w = (Ok l, w1) →
  Prefix.add_prefix api guild_id v w =
  if bool_decide (5 < length l)%nat then
    (Ok tt, mkWorld (backend w1) (events w1 ++ [EvSendMessage Prefix.limit_message]))
  else if bool_decide (v = "") then
    (Ok tt, mkWorld (backend w1) (events w1 ++ [EvSendModal; EvModalWait]))
  else if list_contains v l then
    (Ok tt, mkWorld (backend w1)
              (events w1 ++ [EvSendModal; EvModalWait;
                             EvFollowupSend Prefix.duplicate_message true]))
  else
    (fst (bulk_upsert_guild_prefixes api guild_id (l ++ [v]) (backend w1)),
     mkWorld (snd (bulk_upsert_guild_prefixes api guild_id (l ++ [v]) (backend w1)))
             (events w1 ++ [EvSendModal; EvModalWait;
                            EvBulkUpsertGuildPrefixes guild_id (l ++ [v])])).
Proof.
  intros Hget. unfold Prefix.add_prefix. rewrite (bind_ok _ _ _ _ _ Hget).
  case_bool_decide; [by rewrite ui_run |].
  rewrite !ui_then. simpl.
  case_bool_decide; [by rewrite <- !(assoc_L (++)) |].
  destruct (list_contains v l).
  - rewrite ui_run. simpl. by rewrite <- !(assoc_L (++)).
  - rewrite call_run. simpl. by rewrite <- !(assoc_L (++)).
Qed.

(** The three ways through [remove_prefix], once the list is fetched. *)
Lemma remove_prefix_run guild_id values (w w1 : World E) l :
  Prefix.get_prefixes api guild_id w = (Ok l, w1) →
  Prefix.remove_prefix api guild_id values w =
  let shown := events w1 ++ [EvDefer; EvFollowupSendView l; EvSelectWait; EvDeleteMessage] in
  match values with
  | [] => (Ok tt, mkWorld (backend w1) shown)
  | v :: _ =>
      match list_remove v l with
      | None => (Raise ValueError, mkWorld (backend w1) shown)
      | Some l' =>
          (fst (bulk_upsert_guild_prefixes api guild_id l' (backend w1)),
           mkWorld (snd (bulk_upsert_guild_prefixes api guild_id l' (backend w1)))
                   (shown ++ [EvBulkUpsertGuildPrefixes guild_id l']))
      end
  end.
Proof.
  intros Hget. unfold Prefix.remove_prefix. rewrite (bind_ok _ _ _ _ _ Hget).
  rewrite !ui_then. simpl. rewrite <- !(assoc_L (++)). simpl.
  destruct values as [|v rest]; [done |].
  destruct (list_remove v l) as [l'|]; [| done].
  rewrite call_run. simpl. by rewrite <- !(assoc_L (++)).
Qed.

(** Above five stored prefixes the menu refuses and writes nothing. *)
Lemma add_prefix_above_five guild_id v (w w1 : World E) l :
  Prefix.get_prefixes api guild_id w = (Ok l, w1) →
  (5 < length l)%nat →
  Prefix.add_prefix api guild_id v w =
  (Ok tt, mkWorld (backend w1) (events w1 ++ [EvSendMessage Prefix.limit_message])).
Proof.
  intros Hget Hlen. rewrite (add_prefix_run _ _ _ _ _ Hget).
  by rewrite bool_decide_eq_true_2.
Qed.

(** A list that [add_prefix] writes is the fetched one, of at most five
    entries, with one new non-empty value at its end. *)
Lemma add_prefix_written guild_id v (w w1 : World E) l evs l' :
  Prefix.get_prefixes api guild_id w = (Ok l, w1) →
  events (snd (Prefix.add_prefix api guild_id v w)) = events w1 ++ evs →
  EvBulkUpsertGuildPrefixes guild_id l' ∈ evs →
  l' = l ++ [v] ∧ (length l ≤ 5)%nat ∧ v ≠ "" ∧ v ∉ l.
Proof.
  intros Hget Hev Hin. rewrite (add_prefix_run _ _ _ _ _ Hget) in Hev.
  case_bool_decide as Hlen.
  { simpl in Hev. apply app_inv_head in Hev. subst evs. by split_in Hin. }
  case_bool_decide as Hv.
  { simpl in Hev. apply app_inv_head in Hev. subst evs. by split_in Hin. }
  destruct (list_contains v l) eqn:Hc.
  { simpl in Hev. apply app_inv_head in Hev. subst evs. by split_in Hin. }
  simpl in Hev. apply app_inv_head in Hev. subst evs.
  split_in Hin. injection Hin as ->.
  repeat split; [lia | done |].
  intros Hl. apply list_contains_true in Hl. congruence.
Qed.

End prefix_facts.

(** What [add_prefix] writes keeps a duplicate-free list duplicate-free
    and never holds more than six entries. *)
Lemma add_prefix_written_bounds {E} (api : Api E) guild_id v (w w1 : World E) l evs l' :
  Prefix.get_prefixes api guild_id w = (Ok l, w1) →
  events (snd (Prefix.add_prefix api guild_id v w)) = events w1 ++ evs →
  EvBulkUpsertGuildPrefixes guild_id l' ∈ evs →
  (length l' ≤ 6)%nat ∧ (NoDup l → NoDup l').
Proof.
  intros Hget Hev Hin.
  destruct (add_prefix_written api _ _ _ _ _ _ _ Hget Hev Hin) as (-> & Hlen & _ & Hnew).
  split.
  - rewrite length_app. simpl. lia.
  - intros Hnd. apply NoDup_app. repeat split; [done | | apply NoDup_singleton].
    intros x Hx Hx'. apply list_elem_of_singleton in Hx'. by subst.
Qed.

(** With exactly five prefixes fetched, a new non-empty value is not
    refused: the handler goes on to write a list of six. *)
Lemma add_prefix_five_goes_on {E} (api : Api E) guild_id v (w w1 : World E) l :
  Prefix.get_prefixes api guild_id w = (Ok l, w1) →
  length l = 5%nat →
  v ≠ "" →
  v ∉ l →
  events (snd (Prefix.add_prefix api guild_id v w))
    = events w1 ++ [EvSendModal; EvModalWait;
                    EvBulkUpsertGuildPrefixes guild_id (l ++ [v])]
  ∧ length (l ++ [v]) = 6%nat.
Proof.
  intros Hget Hlen Hv Hnin. rewrite (add_prefix_run api _ _ _ _ _ Hget).
  rewrite bool_decide_eq_false_2 by lia.
  rewrite bool_decide_eq_false_2 by done.
  destruct (list_contains v l) eqn:Hc.
  { apply list_contains_true in Hc. done. }
  split; [done |]. rewrite length_app. simpl. lia.
Qed.

(** C1: a guild whose stored list has exactly five prefixes is not refused
    a further one.  The guard of [add_prefix] is [len(prefixes) > 5], so
    with ["!"; "?"; "."; "$"; "%"] stored and "&" submitted the handler
    sends no refusal and calls [bulk_upsert_guild_prefixes] with six
    entries, which the storage then holds. *)
Theorem add_prefix_at_five_writes_sixth :
  Prefix.add_prefix Store.api 1 "&" (Store.world store5) =
  (Ok tt,
   mkWorld (Store.mk {[ 1 := five ++ ["&"] ]} ∅ ∅ ∅ true)
           [EvRequestGetPrefixes 1; EvSendModal; EvModalWait;
            EvBulkUpsertGuildPrefixes 1 (five ++ ["&"])]).
Proof. vm_compute. reflexivity. Qed.

(** C5: the stored list does not stay within five entries.  Six values
    added one after another to a guild without prefixes are all stored,
    and with five stored [update_components] leaves the add button
    enabled. *)
Theorem six_prefixes_stored :
  Store.prefixes (backend (add_all 1 (five ++ ["&"]) (Store.world Store.empty))) !! 1
    = Some (five ++ ["&"])
  ∧ length (five ++ ["&"]) = 6%nat
  ∧ fst (Prefix.update_components Store.api Prefix.initial 1 (Store.world store5))
    = Ok (Prefix.mkView (mkButton "Add prefix" false) (mkButton "Remove prefix" false)).
Proof. vm_compute. repeat split. Qed.

(** C6: a submitted value (the modal submits no empty text) that is
    already in the fetched list is refused: the handler answers with the
    limit message (more than five stored, before the modal opens) or with
    "This prefix is already registered!", returns, and makes no call that
    writes; the backend is as the read left it. *)
Theorem add_prefix_duplicate_rejected {E} (api : Api E) guild_id v (w w1 : World E) l :
  Prefix.get_prefixes api guild_id w = (Ok l, w1) →
  v ∈ l →
  v ≠ "" →
  Prefix.add_prefix api guild_id v w =
  (Ok tt,
   mkWorld (backend w1)
     (events w1 ++
      if bool_decide (5 < length l)%nat
      then [EvSendMessage Prefix.limit_message]
      else [EvSendModal; EvModalWait; EvFollowupSend Prefix.duplicate_message true])).
Proof.
  intros Hget Hin Hv. rewrite (add_prefix_run api _ _ _ _ _ Hget).
  case_bool_decide; [done |].
  rewrite bool_decide_eq_false_2 by done.
  apply list_contains_true in Hin. by rewrite Hin.
Qed.

Lemma add_prefix_duplicate_rejected_witness :
  Prefix.add_prefix Store.api 1 "?" (Store.world store5) =
  (Ok tt,
   mkWorld store5
     [EvRequestGetPrefixes 1; EvSendModal; EvModalWait;
      EvFollowupSend Prefix.duplicate_message true]).
Proof.
  apply (add_prefix_duplicate_rejected Store.api 1 "?" (Store.world store5)
           (mkWorld store5 [EvRequestGetPrefixes 1]) five).
  - reflexivity.
  - by apply (bool_decide_unpack _).
  - discriminate.
Defined.

(** C7: a configuration read never ends in a not-found error.  For the
    prefixes, whatever the API answers: not-found, as for a guild without
    stored configuration, is recovered into [[]], a normal result, and the
    menu renders its no-prefixes message.  For the guild record, read
    through [get_guild_bot_config] as the specification describes it: the
    read never ends in not-found, and a guild with nothing stored gets a
    record with no autorole id and no autorole, which the autorole menu
    renders as not configured. *)
Theorem reads_never_surface_not_found {E} (api : Api E) guild_id (w : World E) r e'
    (s : Store.t) self :
  request_get_prefixes api guild_id (backend w) = (r, e') →
  Store.online s = true →
  Store.prefixes s !! guild_id = None →
  Store.autoroles s !! guild_id = None →
  Store.cache s !! guild_id = None →
  fst (Prefix.get_prefixes api guild_id w) ≠ Raise NotFound
  ∧ (r = Raise NotFound →
     Prefix.get_prefixes api guild_id w
       = (Ok [], mkWorld e' (events w ++ [EvRequestGetPrefixes guild_id]))
     ∧ Prefix.format_initial_message api guild_id w
       = (Ok "No custom prefixes are currently set up!",
          mkWorld e' (events w ++ [EvRequestGetPrefixes guild_id])))
  ∧ Prefix.get_prefixes Store.api guild_id (Store.world s)
    = (Ok [], mkWorld s [EvRequestGetPrefixes guild_id])
  ∧ (∀ s' guild_id', fst (Store.get_guild_bot_config guild_id' s') ≠ Raise NotFound)
  ∧ (∃ record s',
       Store.get_guild_bot_config guild_id s = (Ok record, s')
       ∧ autorole_id record = None
       ∧ autorole record = None)
  ∧ (∃ embed self' w',
       AutoRole.format_initial_message Store.api self guild_id (Store.world s)
         = (Ok (embed, self'), w')
       ∧ description embed = Some AutoRole.unset_description
       ∧ label (AutoRole.add_autorole_button_ self') = "Add an autorole"
       ∧ disabled (AutoRole.remove_autorole_button_ self') = true).
Proof.
  intros Hreq Hon Hpfx Hrole Hcache. split; [| split; [| split; [| split; [| split]]]].
  - rewrite get_prefixes_run, Hreq. simpl. by destruct r as [l|[]].
  - intros ->.
    assert (Prefix.get_prefixes api guild_id w
            = (Ok [], mkWorld e' (events w ++ [EvRequestGetPrefixes guild_id]))) as Hget.
    { rewrite get_prefixes_run, Hreq. reflexivity. }
    split; [done |].
    unfold Prefix.format_initial_message. by rewrite (bind_ok _ _ _ _ _ Hget).
  - rewrite get_prefixes_run. simpl. unfold Store.request_get_prefixes.
    by rewrite Hon, Hpfx.
  - intros s' guild_id'. unfold Store.get_guild_bot_config.
    destruct (Store.cache s' !! guild_id'); [done |].
    by destruct (Store.online s').
  - unfold Store.get_guild_bot_config. rewrite Hcache, Hon.
    eexists _, _. split; [reflexivity |].
    unfold autorole, Store.fetch. simpl. by rewrite Hrole.
  - unfold AutoRole.format_initial_message, mbind, M_bind, call. simpl.
    unfold Store.get_guild_bot_config. rewrite Hcache, Hon. simpl.
    unfold autorole, Store.fetch. simpl. rewrite Hrole.
    eexists _, _, _. repeat split.
Qed.

Lemma reads_never_surface_not_found_witness :
  fst (Prefix.get_prefixes Store.api 7 (Store.world Store.empty)) ≠ Raise NotFound
  ∧ Prefix.format_initial_message Store.api 7 (Store.world Store.empty)
    = (Ok "No custom prefixes are currently set up!",
       mkWorld Store.empty [EvRequestGetPrefixes 7])
  ∧ (∃ record s',
       Store.get_guild_bot_config 7 Store.empty = (Ok record, s')
       ∧ autorole_id record = None
       ∧ autorole record = None).
Proof.
  destruct (reads_never_surface_not_found Store.api 7 (Store.world Store.empty)
              (Raise NotFound) Store.empty Store.empty AutoRole.initial
              eq_refl eq_refl eq_refl eq_refl eq_refl)
    as (Hnever & Hempty & _ & _ & Hrecord & _).
  split; [exact Hnever |]. split; [exact (proj2 (Hempty eq_refl)) | exact Hrecord].
Defined.

(** What [prefixes.remove] does with a value that is not in the list: it
    raises [ValueError] before anything is written.  The select menu,
    built from the same list, never hands the handler such a value. *)
Lemma remove_prefix_absent_raises {E} (api : Api E) guild_id v rest (w w1 : World E) l :
  Prefix.get_prefixes api guild_id w = (Ok l, w1) →
  v ∉ l →
  Prefix.remove_prefix api guild_id (v :: rest) w =
  (Raise ValueError,
   mkWorld (backend w1)
     (events w1 ++ [EvDefer; EvFollowupSendView l; EvSelectWait; EvDeleteMessage])).
Proof.
  intros Hget Hnin. rewrite (remove_prefix_run api _ _ _ _ _ Hget). simpl.
  apply list_remove_None in Hnin. by rewrite Hnin.
Qed.



(** The handler itself checks the modal's value for emptiness only and
    stores what it is handed: the length bounds are those of the text
    input. *)
Lemma add_prefix_checks_emptiness_only :
  String.length long_prefix = 51%nat
  ∧ ModalSubmission.value PrefixModal.prefix (Some long_prefix) = ""
  ∧ Prefix.add_prefix Store.api 1 long_prefix (Store.world Store.empty)
    = (Ok tt,
       mkWorld (Store.mk {[ 1 := [long_prefix] ]} ∅ ∅ ∅ true)
         [EvRequestGetPrefixes 1; EvSendModal; EvModalWait;
          EvBulkUpsertGuildPrefixes 1 [long_prefix]]).
Proof. vm_compute. repeat split. Qed.



(** ** The autorole menu *)

(** The three descriptions are three different texts. *)
Lemma autorole_descriptions_differ (role : Role.t) :
  AutoRole.healthy_description role ≠ AutoRole.unset_description
  ∧ AutoRole.healthy_description role ≠ AutoRole.broken_description
  ∧ AutoRole.broken_description ≠ AutoRole.unset_description.
Proof.
  unfold AutoRole.healthy_description, AutoRole.unset_description,
    AutoRole.broken_description.
  repeat split; intros Heq; simpl in Heq; discriminate Heq.
Qed.

(** C8: the render of the autorole menu has three states, decided by the
    record: no [autorole_id] gives the label "Add an autorole" and a
    disabled remove button; an id that resolves to a role gives "Change
    autorole" and an enabled remove button; an id that no longer resolves
    gives "Change autorole", an enabled remove button and a description of
    its own, different from the two others. *)
Theorem format_initial_message_three_states {E} (api : Api E) self guild_id
    (w : World E) record e' :
  get_guild_bot_config api guild_id (backend w) = (Ok record, e') →
  ∃ embed self',
    AutoRole.format_initial_message api self guild_id w
      = (Ok (embed, self'), mkWorld e' (events w ++ [EvGetGuildBotConfig guild_id]))
    ∧ match autorole_id record with
      | None =>
          label (AutoRole.add_autorole_button_ self') = "Add an autorole"
          ∧ disabled (AutoRole.remove_autorole_button_ self') = true
          ∧ description embed = Some AutoRole.unset_description
      | Some role_id =>
          label (AutoRole.add_autorole_button_ self') = "Change autorole"
          ∧ disabled (AutoRole.remove_autorole_button_ self') = false
          ∧ match get_role record role_id with
            | Some role =>
                description embed = Some (AutoRole.healthy_description role)
                ∧ description embed ≠ Some AutoRole.unset_description
                ∧ description embed ≠ Some AutoRole.broken_description
            | None =>
                description embed = Some AutoRole.broken_description
                ∧ description embed ≠ Some AutoRole.unset_description
                ∧ ∀ role, description embed ≠ Some (AutoRole.healthy_description role)
            end
      end.
Proof.
  intros Hget. unfold AutoRole.format_initial_message.
  erewrite bind_ok; [| by rewrite call_run, Hget].
  unfold autorole. destruct (autorole_id record) as [role_id|].
  - destruct (get_role record role_id) as [role|].
    + eexists _, _. split; [reflexivity |]. simpl.
      destruct (autorole_descriptions_differ role) as (Hu & Hb & _).
      repeat split; congruence.
    + eexists _, _. split; [reflexivity |]. simpl.
      repeat split.
      * destruct (autorole_descriptions_differ role42) as (_ & _ & Hbu). congruence.
      * intros role. destruct (autorole_descriptions_differ role) as (_ & Hb & _).
        congruence.
  - eexists _, _. split; [reflexivity |]. by simpl.
Qed.

Lemma format_initial_message_three_states_witness :
  ∃ embed self',
    AutoRole.format_initial_message Store.api AutoRole.initial 1
        (Store.world (Store.mk ∅ {[ 1 := 42 ]} ∅ ∅ true))
      = (Ok (embed, self'),
         mkWorld (Store.mk ∅ {[ 1 := 42 ]} ∅
                    {[ 1 := Store.fetch 1 (Store.mk ∅ {[ 1 := 42 ]} ∅ ∅ true) ]} true)
                 [EvGetGuildBotConfig 1])
    ∧ label (AutoRole.add_autorole_button_ self') = "Change autorole"
    ∧ disabled (AutoRole.remove_autorole_button_ self') = false
    ∧ description embed = Some AutoRole.broken_description
    ∧ description embed ≠ Some AutoRole.unset_description
    ∧ ∀ role, description embed ≠ Some (AutoRole.healthy_description role).
Proof.
  exact (format_initial_message_three_states Store.api AutoRole.initial 1
           (Store.world (Store.mk ∅ {[ 1 := 42 ]} ∅ ∅ true))
           (Store.fetch 1 (Store.mk ∅ {[ 1 := 42 ]} ∅ ∅ true))
           (Store.mk ∅ {[ 1 := 42 ]} ∅
              {[ 1 := Store.fetch 1 (Store.mk ∅ {[ 1 := 42 ]} ∅ ∅ true) ]} true)
           eq_refl).
Defined.

(** C3, as the code has it: the autorole handlers call [invalidate] after
    the backing write and only when that write returned.  When
    [add_config_key] or [remove_config_key] raises, the handler stops
    there: the error propagates and [invalidate] is not called. *)
Theorem autorole_invalidate_follows_write {E} (api : Api E) guild_id role
    (w : World E) r1 e1 r2 e2 :
  add_config_key api guild_id "autorole" (Role.id role) (backend w) = (r1, e1) →
  remove_config_key api guild_id "autorole" (backend w) = (r2, e2) →
  AutoRole.add_autorole_button api guild_id (Some role) w
    = match r1 with
      | Ok _ =>
          (fst (invalidate api guild_id e1),
           mkWorld (snd (invalidate api guild_id e1))
             (events w ++ [EvDefer; EvPromptConvert AutoRole.prompt_content;
                           EvAddConfigKey guild_id "autorole" (Role.id role);
                           EvInvalidate guild_id]))
      | Raise x =>
          (Raise x,
           mkWorld e1
             (events w ++ [EvDefer; EvPromptConvert AutoRole.prompt_content;
                           EvAddConfigKey guild_id "autorole" (Role.id role)]))
      end
  ∧ AutoRole.remove_autorole_button api guild_id w
    = match r2 with
      | Ok _ =>
          match fst (invalidate api guild_id e2) with
          | Ok _ =>
              (Ok tt,
               mkWorld (snd (invalidate api guild_id e2))
                 (events w ++ [EvRemoveConfigKey guild_id "autorole";
                               EvInvalidate guild_id;
                               EvSendMessage "Successfully removed the server's autorole";
                               EvUpdate]))
          | Raise x =>
              (Raise x,
               mkWorld (snd (invalidate api guild_id e2))
                 (events w ++ [EvRemoveConfigKey guild_id "autorole";
                               EvInvalidate guild_id]))
          end
      | Raise x =>
          (Raise x, mkWorld e2 (events w ++ [EvRemoveConfigKey guild_id "autorole"]))
      end.
Proof.
  intros Hadd Hrm. split.
  - unfold AutoRole.add_autorole_button. rewrite !ui_then. simpl.
    unfold mbind, M_bind. rewrite call_run. simpl. rewrite Hadd. simpl.
    destruct r1 as [[]|x]; simpl.
    + rewrite call_run. simpl. by rewrite <- !(assoc_L (++)).
    + by rewrite <- !(assoc_L (++)).
  - unfold AutoRole.remove_autorole_button.
    unfold mbind, M_bind. rewrite call_run. simpl. rewrite Hrm. simpl.
    destruct r2 as [[]|x]; simpl; [| done].
    rewrite call_run. simpl.
    destruct (invalidate api guild_id e2) as [[[]|x] e3]; simpl.
    + rewrite !ui_run. simpl. by rewrite <- !(assoc_L (++)).
    + by rewrite <- !(assoc_L (++)).
Qed.

Lemma autorole_invalidate_follows_write_witness :
  AutoRole.add_autorole_button Store.api 1 (Some role42) (Store.world store_down)
    = (Raise StorageError,
       mkWorld store_down
         [EvDefer; EvPromptConvert AutoRole.prompt_content;
          EvAddConfigKey 1 "autorole" 42])
  ∧ AutoRole.remove_autorole_button Store.api 1 (Store.world store_down)
    = (Raise StorageError, mkWorld store_down [EvRemoveConfigKey 1 "autorole"]).
Proof.
  apply (autorole_invalidate_follows_write Store.api 1 role42 (Store.world store_down)
           (Raise StorageError) store_down (Raise StorageError) store_down);
    reflexivity.
Defined.

(** C3, as the claim states it, fails: with the storage down and a record
    cached for guild 1, adding an autorole raises and the handler never
    calls [invalidate]; the cached record is still there afterwards.  The
    same holds for removing the autorole. *)
Lemma failed_write_keeps_cache :
  fst (AutoRole.add_autorole_button Store.api 1 (Some role42) (Store.world store_down))
    = Raise StorageError
  ∧ (EvInvalidate 1 ∉
      events (snd (AutoRole.add_autorole_button Store.api 1 (Some role42)
                     (Store.world store_down))))
  ∧ is_Some (Store.cache
               (backend (snd (AutoRole.add_autorole_button Store.api 1 (Some role42)
                                (Store.world store_down)))) !! 1)
  ∧ fst (AutoRole.remove_autorole_button Store.api 1 (Store.world store_down))
    = Raise StorageError
  ∧ (EvInvalidate 1 ∉
      events (snd (AutoRole.remove_autorole_button Store.api 1 (Store.world store_down))))
  ∧ is_Some (Store.cache
               (backend (snd (AutoRole.remove_autorole_button Store.api 1
                                (Store.world store_down)))) !! 1).
Proof.
  repeat split; try reflexivity; try (by apply (bool_decide_unpack _));
    by eexists.
Qed.

(** ** Cancelled sub-flows *)

(** C9: a sub-flow that resolves with nothing leads to no mutation.  With
    no role from the prompt, an empty modal value, or an empty selection,
    the handler returns normally, the calls it made since it started are
    its read and Discord calls, none of them a write, and the backend is
    as the read left it ([add_autorole_button] makes no backend call at
    all). *)
Theorem cancelled_subflow_writes_nothing {E} (api : Api E) guild_id
    (w w1 : World E) l :
  Prefix.get_prefixes api guild_id w = (Ok l, w1) →
  AutoRole.add_autorole_button api guild_id None w
    = (Ok tt,
       mkWorld (backend w)
         (events w ++ [EvDefer; EvPromptConvert AutoRole.prompt_content]))
  ∧ Prefix.add_prefix api guild_id "" w
    = (Ok tt,
       mkWorld (backend w1)
         (events w1 ++
          if bool_decide (5 < length l)%nat
          then [EvSendMessage Prefix.limit_message]
          else [EvSendModal; EvModalWait]))
  ∧ Prefix.remove_prefix api guild_id [] w
    = (Ok tt,
       mkWorld (backend w1)
         (events w1 ++ [EvDefer; EvFollowupSendView l; EvSelectWait; EvDeleteMessage]))
  ∧ writes (events (snd (AutoRole.add_autorole_button api guild_id None w)))
    = writes (events w)
  ∧ writes (events (snd (Prefix.add_prefix api guild_id "" w))) = writes (events w)
  ∧ writes (events (snd (Prefix.remove_prefix api guild_id [] w))) = writes (events w).
Proof.
  intros Hget.
  assert (events w1 = events w ++ [EvRequestGetPrefixes guild_id]) as Hev.
  { rewrite <- (get_prefixes_events api guild_id w). by rewrite Hget. }
  assert (AutoRole.add_autorole_button api guild_id None w
          = (Ok tt, mkWorld (backend w)
                      (events w ++ [EvDefer; EvPromptConvert AutoRole.prompt_content])))
    as Hrole.
  { unfold AutoRole.add_autorole_button. rewrite !ui_then. simpl.
    by rewrite <- !(assoc_L (++)). }
  assert (Prefix.add_prefix api guild_id "" w
          = (Ok tt, mkWorld (backend w1)
                      (events w1 ++
                       if bool_decide (5 < length l)%nat
                       then [EvSendMessage Prefix.limit_message]
                       else [EvSendModal; EvModalWait]))) as Hadd.
  { rewrite (add_prefix_run api _ _ _ _ _ Hget). by case_bool_decide. }
  assert (Prefix.remove_prefix api guild_id [] w
          = (Ok tt, mkWorld (backend w1)
                      (events w1 ++ [EvDefer; EvFollowupSendView l; EvSelectWait;
                                     EvDeleteMessage]))) as Hrm.
  { by rewrite (remove_prefix_run api _ _ _ _ _ Hget). }
  repeat split; try done.
  - rewrite Hrole. unfold writes. simpl. rewrite List.filter_app. simpl.
    by rewrite (right_id_L [] (++)).
  - rewrite Hadd. unfold writes. simpl. rewrite Hev, !List.filter_app.
    case_bool_decide; simpl; by rewrite !(right_id_L [] (++)).
  - rewrite Hrm. unfold writes. simpl. rewrite Hev, !List.filter_app. simpl.
    by rewrite !(right_id_L [] (++)).
Qed.

Lemma cancelled_subflow_writes_nothing_witness :
  AutoRole.add_autorole_button Store.api 1 None (Store.world store5)
    = (Ok tt, mkWorld store5 [EvDefer; EvPromptConvert AutoRole.prompt_content])
  ∧ Prefix.add_prefix Store.api 1 "" (Store.world store5)
    = (Ok tt, mkWorld store5 [EvRequestGetPrefixes 1; EvSendModal; EvModalWait])
  ∧ Prefix.remove_prefix Store.api 1 [] (Store.world store5)
    = (Ok tt,
       mkWorld store5
         [EvRequestGetPrefixes 1; EvDefer; EvFollowupSendView five; EvSelectWait;
          EvDeleteMessage])
  ∧ writes (events (snd (AutoRole.add_autorole_button Store.api 1 None
                           (Store.world store5)))) = []
  ∧ writes (events (snd (Prefix.add_prefix Store.api 1 "" (Store.world store5)))) = []
  ∧ writes (events (snd (Prefix.remove_prefix Store.api 1 [] (Store.world store5)))) = [].
Proof.
  exact (cancelled_subflow_writes_nothing Store.api 1 (Store.world store5)
           (mkWorld store5 [EvRequestGetPrefixes 1]) five eq_refl).
Defined.

(** ** The session lock *)

Lemma holders_remove c l l' :
  list_remove c l = Some l' →
  length (List.filter MenuSession.lock_when_pressed l)
  = (length (List.filter MenuSession.lock_when_pressed l')
     + if MenuSession.lock_when_pressed c then 1 else 0)%nat.
Proof.
  revert l'. induction l as [|y l IH]; intros l'; simpl; [done |].
  destruct (decide (y = c)) as [->|Hne].
  - intros [= <-]. destruct (MenuSession.lock_when_pressed c); simpl; lia.
  - destruct (list_remove c l) as [r|]; [| done].
    intros [= <-]. simpl. specialize (IH r eq_refl).
    destruct (MenuSession.lock_when_pressed y); simpl; lia.
Qed.

(** The flag is set exactly while one decorated handler is in flight, and
    there is never more than one. *)
Lemma locked_counts_holders s :
  MenuSession.reachable s →
  length (MenuSession.holders s) = if MenuSession.locked s then 1%nat else 0%nat.
Proof.
  induction 1 as [| s c s' Hs IH Hact | s c Hs IH Hin].
  - reflexivity.
  - unfold MenuSession.activate in Hact.
    destruct (MenuSession.locked s) eqn:Hl; [done |].
    injection Hact as <-. unfold MenuSession.holders in *. simpl.
    destruct (MenuSession.lock_when_pressed c); simpl; lia.
  - unfold MenuSession.holders, MenuSession.complete in *. simpl.
    destruct (list_remove c (MenuSession.in_flight s)) as [l'|] eqn:Hrm.
    + apply holders_remove in Hrm. simpl.
      destruct (MenuSession.lock_when_pressed c), (MenuSession.locked s); lia.
    + apply list_remove_None in Hrm. done.
Qed.

(** C2, as the code has it: while a handler decorated with
    [lock_when_pressed] (add autorole, add prefix, remove prefix) is in
    flight, it is the only such handler, every further activation on the
    session is rejected, and once it completes an activation is accepted
    again. *)
Theorem decorated_handler_excludes s c1 c2 :
  MenuSession.reachable s →
  MenuSession.lock_when_pressed c1 = true →
  c1 ∈ MenuSession.in_flight s →
  MenuSession.holders s = [c1]
  ∧ MenuSession.activate c2 s = None
  ∧ is_Some (MenuSession.activate c2 (MenuSession.complete c1 s)).
Proof.
  intros Hs Hc1 Hin.
  pose proof (locked_counts_holders s Hs) as Hinv.
  assert (c1 ∈ MenuSession.holders s) as Hh.
  { unfold MenuSession.holders. apply list_elem_of_In, List.filter_In.
    split; [by apply list_elem_of_In | done]. }
  destruct (MenuSession.holders s) as [|c [|c' rest]] eqn:Hhold.
  - by apply elem_of_nil in Hh.
  - apply list_elem_of_singleton in Hh as ->.
    destruct (MenuSession.locked s) eqn:Hl; [| done].
    split; [done |]. split.
    + unfold MenuSession.activate. by rewrite Hl.
    + unfold MenuSession.activate, MenuSession.complete. simpl. rewrite Hc1. by eexists.
  - simpl in Hinv. destruct (MenuSession.locked s); lia.
Qed.

Lemma decorated_handler_excludes_witness :
  MenuSession.holders (MenuSession.mk true [MenuSession.AddAutorole])
    = [MenuSession.AddAutorole]
  ∧ MenuSession.activate MenuSession.RemoveAutorole
      (MenuSession.mk true [MenuSession.AddAutorole]) = None
  ∧ is_Some (MenuSession.activate MenuSession.RemoveAutorole
               (MenuSession.complete MenuSession.AddAutorole
                  (MenuSession.mk true [MenuSession.AddAutorole]))).
Proof.
  apply (decorated_handler_excludes (MenuSession.mk true [MenuSession.AddAutorole])
           MenuSession.AddAutorole MenuSession.RemoveAutorole).
  - apply (MenuSession.reachable_activate MenuSession.idle MenuSession.AddAutorole).
    + apply MenuSession.reachable_idle.
    + reflexivity.
  - reflexivity.
  - by apply (bool_decide_unpack _).
Defined.

(** C2, as the claim states it, fails for remove autorole: its handler is
    not decorated, so while it is in flight the flag is clear and a second
    activation is accepted; two mutating handlers are then in flight. *)
Lemma remove_autorole_takes_no_lock :
  MenuSession.activate MenuSession.RemoveAutorole MenuSession.idle
    = Some (MenuSession.mk false [MenuSession.RemoveAutorole])
  ∧ MenuSession.activate MenuSession.AddAutorole
      (MenuSession.mk false [MenuSession.RemoveAutorole])
    = Some (MenuSession.mk true [MenuSession.AddAutorole; MenuSession.RemoveAutorole])
  ∧ MenuSession.activate MenuSession.AddAutorole
      (MenuSession.mk false [MenuSession.RemoveAutorole]) ≠ None.
Proof. repeat split; done. Qed.

(** * Further properties of the menus *)

(** ** Removing the first occurrence *)

Lemma list_remove_split {A} `{EqDecision A} (x : A) (l l' : list A) :
  list_remove x l = Some l' →
  ∃ l1 l2, l = l1 ++ x :: l2 ∧ (x ∉ l1) ∧ l' = l1 ++ l2.
Proof.
  revert l'. induction l as [|y l IH]; intros l'; simpl; [done |].
  destruct (decide (y = x)) as [->|Hne].
  - intros [= <-]. exists [], l. repeat split; [apply not_elem_of_nil].
  - destruct (list_remove x l) as [r|]; [| done].
    intros [= <-]. destruct (IH r eq_refl) as (l1 & l2 & -> & Hnin & ->).
    exists (y :: l1), l2. repeat split.
    intros Hin. apply elem_of_cons in Hin as [Heq|Hin]; [by subst | done].
Qed.

Lemma list_remove_appended {A} `{EqDecision A} (x : A) (l : list A) :
  x ∉ l → list_remove x (l ++ [x]) = Some l.
Proof.
  induction l as [|y l IH]; intros Hnin; simpl.
  - by rewrite decide_True.
  - rewrite decide_False.
    + rewrite IH; [done |]. intros Hin. apply Hnin. by right.
    + intros ->. apply Hnin. left.
Qed.

(** ** The prefix menu, continued *)

(** X1: a read of the prefixes that fails with anything but not-found
    stops every part of the prefix menu at once: the error comes out
    unchanged, and the read is the only call made, so nothing is shown
    and nothing is written. *)
Theorem prefix_read_failure_stops {E} (api : Api E) guild_id self v values
    (w : World E) e e' :
  request_get_prefixes api guild_id (backend w) = (Raise e, e') →
  e ≠ NotFound →
  Prefix.get_prefixes api guild_id w
    = (Raise e, mkWorld e' (events w ++ [EvRequestGetPrefixes guild_id]))
  ∧ Prefix.format_initial_message api guild_id w
    = (Raise e, mkWorld e' (events w ++ [EvRequestGetPrefixes guild_id]))
  ∧ Prefix.update_components api self guild_id w
    = (Raise e, mkWorld e' (events w ++ [EvRequestGetPrefixes guild_id]))
  ∧ Prefix.add_prefix api guild_id v w
    = (Raise e, mkWorld e' (events w ++ [EvRequestGetPrefixes guild_id]))
  ∧ Prefix.remove_prefix api guild_id values w
    = (Raise e, mkWorld e' (events w ++ [EvRequestGetPrefixes guild_id])).
Proof.
  intros Hreq Hne.
  assert (Prefix.get_prefixes api guild_id w
          = (Raise e, mkWorld e' (events w ++ [EvRequestGetPrefixes guild_id]))) as Hget.
  { rewrite get_prefixes_run, Hreq. simpl. by destruct e. }
  split; [done |].
  unfold Prefix.format_initial_message, Prefix.update_components, Prefix.add_prefix,
    Prefix.remove_prefix.
  by rewrite !(bind_raise _ _ _ _ _ Hget).
Qed.

Lemma prefix_read_failure_stops_witness :
  Prefix.get_prefixes Store.api 1 (Store.world store_down)
    = (Raise StorageError, mkWorld store_down [EvRequestGetPrefixes 1])
  ∧ Prefix.format_initial_message Store.api 1 (Store.world store_down)
    = (Raise StorageError, mkWorld store_down [EvRequestGetPrefixes 1])
  ∧ Prefix.update_components Store.api Prefix.initial 1 (Store.world store_down)
    = (Raise StorageError, mkWorld store_down [EvRequestGetPrefixes 1])
  ∧ Prefix.add_prefix Store.api 1 "!" (Store.world store_down)
    = (Raise StorageError, mkWorld store_down [EvRequestGetPrefixes 1])
  ∧ Prefix.remove_prefix Store.api 1 ["!"] (Store.world store_down)
    = (Raise StorageError, mkWorld store_down [EvRequestGetPrefixes 1]).
Proof.
  apply (prefix_read_failure_stops Store.api 1 Prefix.initial "!" ["!"]
           (Store.world store_down) StorageError store_down).
  - reflexivity.
  - discriminate.
Defined.

(** X2: the first prefix of a guild.  When the read answers not-found,
    submitting a non-empty value makes the handler write the one-element
    list, and the handler ends as that write ends, error included. *)
Theorem add_prefix_first_for_guild {E} (api : Api E) guild_id v (w : World E) e' :
  request_get_prefixes api guild_id (backend w) = (Raise NotFound, e') →
  v ≠ "" →
  Prefix.add_prefix api guild_id v w
  = (fst (bulk_upsert_guild_prefixes api guild_id [v] e'),
     mkWorld (snd (bulk_upsert_guild_prefixes api guild_id [v] e'))
       (events w ++ [EvRequestGetPrefixes guild_id; EvSendModal; EvModalWait;
                     EvBulkUpsertGuildPrefixes guild_id [v]])).
Proof.
  intros Hreq Hv.
  assert (Prefix.get_prefixes api guild_id w
          = (Ok [], mkWorld e' (events w ++ [EvRequestGetPrefixes guild_id]))) as Hget.
  { rewrite get_prefixes_run, Hreq. reflexivity. }
  rewrite (add_prefix_run api _ _ _ _ _ Hget).
  rewrite (bool_decide_eq_false_2 (5 < length [])%nat) by (simpl; lia).
  rewrite (bool_decide_eq_false_2 (v = "")) by done.
  unfold list_contains. rewrite bool_decide_eq_false_2 by apply not_elem_of_nil.
  simpl. by rewrite <- !(assoc_L (++)).
Qed.

Lemma add_prefix_first_for_guild_witness :
  Prefix.add_prefix Store.api 1 "!" (Store.world Store.empty)
  = (Ok tt,
     mkWorld (Store.mk {[ 1 := ["!"] ]} ∅ ∅ ∅ true)
       [EvRequestGetPrefixes 1; EvSendModal; EvModalWait;
        EvBulkUpsertGuildPrefixes 1 ["!"]]).
Proof.
  apply (add_prefix_first_for_guild Store.api 1 "!" (Store.world Store.empty) Store.empty).
  - reflexivity.
  - discriminate.
Defined.

(** X3: removing a listed prefix.  When the first selected value is in the
    fetched list, the handler writes that list without the first
    occurrence of the value: the entries before and after it keep their
    order, further selected values are ignored, and a duplicate-free list
    stays duplicate-free and no longer holds the value. *)
Theorem remove_prefix_drops_first_occurrence {E} (api : Api E) guild_id v rest
    (w w1 : World E) l :
  Prefix.get_prefixes api guild_id w = (Ok l, w1) →
  v ∈ l →
  ∃ l1 l2,
    l = l1 ++ v :: l2
    ∧ (v ∉ l1)
    ∧ Prefix.remove_prefix api guild_id (v :: rest) w
      = (fst (bulk_upsert_guild_prefixes api guild_id (l1 ++ l2) (backend w1)),
         mkWorld (snd (bulk_upsert_guild_prefixes api guild_id (l1 ++ l2) (backend w1)))
           (events w1 ++ [EvDefer; EvFollowupSendView l; EvSelectWait; EvDeleteMessage;
                          EvBulkUpsertGuildPrefixes guild_id (l1 ++ l2)]))
    ∧ (NoDup l → NoDup (l1 ++ l2) ∧ v ∉ l1 ++ l2).
Proof.
  intros Hget Hin.
  destruct (list_remove_is_Some v l Hin) as [l' Hrm].
  destruct (list_remove_split v l l' Hrm) as (l1 & l2 & Hl & Hnin & ->).
  exists l1, l2. repeat split; try done.
  - rewrite (remove_prefix_run api _ _ _ _ _ Hget). simpl. rewrite Hrm.
    by rewrite <- !(assoc_L (++)).
  - subst l. apply NoDup_app in H as (H1 & H2 & H3).
    apply NoDup_cons in H3 as [_ H3]. apply NoDup_app. repeat split; try done.
    intros x Hx Hx'. apply (H2 x Hx). by right.
  - subst l. apply NoDup_app in H as (H1 & H2 & H3).
    apply NoDup_cons in H3 as [H3 _].
    intros Hv. apply elem_of_app in Hv as [Hv|Hv]; done.
Qed.

Lemma remove_prefix_drops_first_occurrence_witness :
  ∃ l1 l2,
    five = l1 ++ "?" :: l2
    ∧ ("?" ∉ l1)
    ∧ Prefix.remove_prefix Store.api 1 ["?"; "!"] (Store.world store5)
      = (fst (Store.bulk_upsert_guild_prefixes 1 (l1 ++ l2) store5),
         mkWorld (snd (Store.bulk_upsert_guild_prefixes 1 (l1 ++ l2) store5))
           ([EvRequestGetPrefixes 1] ++
            [EvDefer; EvFollowupSendView five; EvSelectWait; EvDeleteMessage;
             EvBulkUpsertGuildPrefixes 1 (l1 ++ l2)]))
    ∧ (NoDup five → NoDup (l1 ++ l2) ∧ "?" ∉ l1 ++ l2).
Proof.
  apply (remove_prefix_drops_first_occurrence Store.api 1 "?" ["!"]
           (Store.world store5) (mkWorld store5 [EvRequestGetPrefixes 1]) five).
  - reflexivity.
  - by apply (bool_decide_unpack _).
Defined.

(** X4: add and remove undo each other.  After [add_prefix] has written
    the fetched list with a new value at its end, and the next read
    returns that list, selecting the value in [remove_prefix] writes the
    original list back. *)
Theorem add_then_remove_restores {E} (api : Api E) guild_id v
    (w0 w0' w1 : World E) l :
  Prefix.get_prefixes api guild_id w0 = (Ok l, w0') →
  (length l ≤ 5)%nat →
  v ≠ "" →
  v ∉ l →
  Prefix.get_prefixes api guild_id (snd (Prefix.add_prefix api guild_id v w0))
    = (Ok (l ++ [v]), w1) →
  events (snd (Prefix.add_prefix api guild_id v w0))
    = events w0' ++ [EvSendModal; EvModalWait;
                     EvBulkUpsertGuildPrefixes guild_id (l ++ [v])]
  ∧ events (snd (Prefix.remove_prefix api guild_id [v]
                   (snd (Prefix.add_prefix api guild_id v w0))))
    = events w1 ++ [EvDefer; EvFollowupSendView (l ++ [v]); EvSelectWait;
                    EvDeleteMessage; EvBulkUpsertGuildPrefixes guild_id l].
Proof.
  intros Hget Hlen Hv Hnin Hget2. split.
  - rewrite (add_prefix_run api _ _ _ _ _ Hget).
    rewrite bool_decide_eq_false_2 by lia.
    rewrite bool_decide_eq_false_2 by done.
    destruct (list_contains v l) eqn:Hc; [| done].
    apply list_contains_true in Hc. done.
  - rewrite (remove_prefix_run api _ _ _ _ _ Hget2). simpl.
    rewrite (list_remove_appended v l Hnin). simpl.
    by rewrite <- !(assoc_L (++)).
Qed.

Lemma add_then_remove_restores_witness :
  events (snd (Prefix.add_prefix Store.api 1 "?"
                 (Store.world (Store.mk {[ 1 := ["!"] ]} ∅ ∅ ∅ true))))
    = [EvRequestGetPrefixes 1] ++
      [EvSendModal; EvModalWait; EvBulkUpsertGuildPrefixes 1 (["!"] ++ ["?"])]
  ∧ events (snd (Prefix.remove_prefix Store.api 1 ["?"]
                   (snd (Prefix.add_prefix Store.api 1 "?"
                           (Store.world (Store.mk {[ 1 := ["!"] ]} ∅ ∅ ∅ true))))))
    = [EvRequestGetPrefixes 1; EvSendModal; EvModalWait;
       EvBulkUpsertGuildPrefixes 1 ["!"; "?"]; EvRequestGetPrefixes 1] ++
      [EvDefer; EvFollowupSendView (["!"] ++ ["?"]); EvSelectWait; EvDeleteMessage;
       EvBulkUpsertGuildPrefixes 1 ["!"]].
Proof.
  apply (add_then_remove_restores Store.api 1 "?"
           (Store.world (Store.mk {[ 1 := ["!"] ]} ∅ ∅ ∅ true))
           (mkWorld (Store.mk {[ 1 := ["!"] ]} ∅ ∅ ∅ true) [EvRequestGetPrefixes 1])
           (mkWorld (Store.mk {[ 1 := ["!"; "?"] ]} ∅ ∅ ∅ true)
              [EvRequestGetPrefixes 1; EvSendModal; EvModalWait;
               EvBulkUpsertGuildPrefixes 1 ["!"; "?"]; EvRequestGetPrefixes 1])
           ["!"]).
  - reflexivity.
  - simpl. lia.
  - discriminate.
  - by apply (bool_decide_unpack _).
  - vm_compute. reflexivity.
Defined.

(** X5: the buttons agree with the handlers.  [update_components] keeps
    both labels, disables the add button exactly when [add_prefix], run on
    the same list, answers with the limit message, and disables the remove
    button exactly when there is no prefix to select. *)
Theorem buttons_agree_with_handlers {E} (api : Api E) guild_id self v
    (w w1 : World E) l :
  Prefix.get_prefixes api guild_id w = (Ok l, w1) →
  ∃ self',
    Prefix.update_components api self guild_id w = (Ok self', w1)
    ∧ label (Prefix.add_prefix_ self') = label (Prefix.add_prefix_ self)
    ∧ label (Prefix.remove_prefix_ self') = label (Prefix.remove_prefix_ self)
    ∧ (disabled (Prefix.add_prefix_ self') = true ↔
       Prefix.add_prefix api guild_id v w
       = (Ok tt, mkWorld (backend w1)
                   (events w1 ++ [EvSendMessage Prefix.limit_message])))
    ∧ (disabled (Prefix.remove_prefix_ self') = true ↔ l = []).
Proof.
  intros Hget. unfold Prefix.update_components.
  rewrite (bind_ok _ _ _ _ _ Hget). eexists. split; [reflexivity |].
  simpl. repeat split; try done.
  - intros Hd. apply bool_decide_eq_true in Hd.
    by apply (add_prefix_above_five api _ _ _ _ _ Hget).
  - rewrite (add_prefix_run api _ _ _ _ _ Hget).
    case_bool_decide as Hlen; [done |].
    case_bool_decide as Hv.
    { intros [= Hev]. apply app_inv_head in Hev. discriminate. }
    destruct (list_contains v l).
    { intros [= Hev]. apply app_inv_head in Hev. discriminate. }
    intros [= _ _ Hev]. apply app_inv_head in Hev. discriminate.
  - by destruct l.
  - by intros ->.
Qed.

Lemma buttons_agree_with_handlers_witness :
  ∃ self',
    Prefix.update_components Store.api Prefix.initial 1 (Store.world store5)
      = (Ok self', mkWorld store5 [EvRequestGetPrefixes 1])
    ∧ label (Prefix.add_prefix_ self') = label (Prefix.add_prefix_ Prefix.initial)
    ∧ label (Prefix.remove_prefix_ self') = label (Prefix.remove_prefix_ Prefix.initial)
    ∧ (disabled (Prefix.add_prefix_ self') = true ↔
       Prefix.add_prefix Store.api 1 "&" (Store.world store5)
       = (Ok tt, mkWorld store5
                   ([EvRequestGetPrefixes 1] ++ [EvSendMessage Prefix.limit_message])))
    ∧ (disabled (Prefix.remove_prefix_ self') = true ↔ five = []).
Proof.
  apply (buttons_agree_with_handlers Store.api 1 Prefix.initial "&"
           (Store.world store5) (mkWorld store5 [EvRequestGetPrefixes 1]) five).
  reflexivity.
Defined.

(** ** What the prefix menu shows *)

Lemma string_append_assoc (a b c : string) :
  ((a ++ b) ++ c)%string = (a ++ (b ++ c))%string.
Proof.
  induction a as [|x a IH]; [done |].
  change (String x ((a ++ b) ++ c)%string = String x (a ++ (b ++ c))%string).
  by rewrite IH.
Qed.

Lemma string_append_nil_r (a : string) : (a ++ "")%string = a.
Proof.
  induction a as [|x a IH]; [done |].
  change (String x (a ++ "")%string = String x a). by rewrite IH.
Qed.

Lemma join_occurs (sep x : string) (l : list string) :
  x ∈ l → occurs_in x (join sep l).
Proof.
  induction l as [|y l IH]; intros Hin; [by apply elem_of_nil in Hin |].
  apply elem_of_cons in Hin as [->|Hin].
  - destruct l as [|z l].
    + exists "", "". simpl. by rewrite string_append_nil_r.
    + exists "", (sep ++ join sep (z :: l))%string. reflexivity.
  - destruct l as [|z l]; [by apply elem_of_nil in Hin |].
    destruct (IH Hin) as (before & after & Hj).
    exists (y ++ sep ++ before)%string, after.
    change (join sep (y :: z :: l)) with (y ++ sep ++ join sep (z :: l))%string.
    rewrite Hj. by rewrite !string_append_assoc.
Qed.

(** X6: every stored prefix is shown.  For a non-empty list the message
    carries the heading and, for each prefix, its bullet line; for an
    empty list, fetched as such or recovered from not-found, it is the
    no-prefixes text. *)
Theorem prefix_message_lists_every_prefix {E} (api : Api E) guild_id
    (w w1 : World E) l :
  Prefix.get_prefixes api guild_id w = (Ok l, w1) →
  ∃ msg,
    Prefix.format_initial_message api guild_id w = (Ok msg, w1)
    ∧ (l = [] → msg = "No custom prefixes are currently set up!")
    ∧ (l ≠ [] →
       occurs_in "**Prefix Configuration**:" msg
       ∧ ∀ pfx, pfx ∈ l → occurs_in (bullet_line pfx) msg).
Proof.
  intros Hget. unfold Prefix.format_initial_message.
  rewrite (bind_ok _ _ _ _ _ Hget).
  destruct l as [|p l]; [by eexists |].
  eexists. split; [reflexivity |]. split; [done |]. intros _. split.
  - by exists "", (newline ++ join newline (map bullet_line (p :: l)))%string.
  - intros pfx Hin.
    assert (bullet_line pfx ∈ map bullet_line (p :: l)) as Hm.
    { apply list_elem_of_In, in_map. by apply list_elem_of_In. }
    destruct (join_occurs newline _ _ Hm) as (before & after & Hj).
    exists ("**Prefix Configuration**:" ++ newline ++ before)%string, after.
    change (map (λ pfx0 : string, ("• `" ++ pfx0 ++ "`")%string) (p :: l))
      with (map bullet_line (p :: l)).
    rewrite Hj. by rewrite !string_append_assoc.
Qed.

Lemma prefix_message_lists_every_prefix_witness :
  ∃ msg,
    Prefix.format_initial_message Store.api 1 (Store.world store5)
      = (Ok msg, mkWorld store5 [EvRequestGetPrefixes 1])
    ∧ (five = [] → msg = "No custom prefixes are currently set up!")
    ∧ (five ≠ [] →
       occurs_in "**Prefix Configuration**:" msg
       ∧ ∀ pfx, pfx ∈ five → occurs_in (bullet_line pfx) msg).
Proof.
  apply (prefix_message_lists_every_prefix Store.api 1 (Store.world store5)
           (mkWorld store5 [EvRequestGetPrefixes 1]) five).
  reflexivity.
Defined.

(** ** The autorole menu, continued *)

(** X7: the render of the autorole menu is decided by the record alone.
    Whatever the add button's label and the remove button's state were
    before, two renders of the same record give the same embed, the same
    label and the same state; the render leaves the remove button's label
    and the add button's state alone, and the embed always has the menu's
    title and colour. *)
Theorem autorole_render_from_record_only {E} (api : Api E) guild_id self1 self2
    (w : World E) record e' :
  get_guild_bot_config api guild_id (backend w) = (Ok record, e') →
  ∃ embed self1' self2',
    AutoRole.format_initial_message api self1 guild_id w
      = (Ok (embed, self1'), mkWorld e' (events w ++ [EvGetGuildBotConfig guild_id]))
    ∧ AutoRole.format_initial_message api self2 guild_id w
      = (Ok (embed, self2'), mkWorld e' (events w ++ [EvGetGuildBotConfig guild_id]))
    ∧ label (AutoRole.add_autorole_button_ self1')
      = label (AutoRole.add_autorole_button_ self2')
    ∧ disabled (AutoRole.remove_autorole_button_ self1')
      = disabled (AutoRole.remove_autorole_button_ self2')
    ∧ label (AutoRole.remove_autorole_button_ self1')
      = label (AutoRole.remove_autorole_button_ self1)
    ∧ disabled (AutoRole.add_autorole_button_ self1')
      = disabled (AutoRole.add_autorole_button_ self1)
    ∧ title embed = "Auto Role Configuration"
    ∧ color embed = 16206598.
Proof.
  intros Hget. unfold AutoRole.format_initial_message.
  erewrite !bind_ok; [| by rewrite call_run, Hget | by rewrite call_run, Hget].
  destruct (autorole record) as [role|]; [| destruct (autorole_id record)];
    eexists _, _, _; repeat split.
Qed.

Lemma autorole_render_from_record_only_witness :
  ∃ embed self1' self2',
    AutoRole.format_initial_message Store.api AutoRole.initial 1 (Store.world Store.empty)
      = (Ok (embed, self1'),
         mkWorld (Store.mk ∅ ∅ ∅ {[ 1 := Store.fetch 1 Store.empty ]} true)
                 ([] ++ [EvGetGuildBotConfig 1]))
    ∧ AutoRole.format_initial_message Store.api
        (AutoRole.mkView (mkButton "Change autorole" false)
                         (mkButton "Remove autorole" false))
        1 (Store.world Store.empty)
      = (Ok (embed, self2'),
         mkWorld (Store.mk ∅ ∅ ∅ {[ 1 := Store.fetch 1 Store.empty ]} true)
                 ([] ++ [EvGetGuildBotConfig 1]))
    ∧ label (AutoRole.add_autorole_button_ self1')
      = label (AutoRole.add_autorole_button_ self2')
    ∧ disabled (AutoRole.remove_autorole_button_ self1')
      = disabled (AutoRole.remove_autorole_button_ self2')
    ∧ label (AutoRole.remove_autorole_button_ self1')
      = label (AutoRole.remove_autorole_button_ AutoRole.initial)
    ∧ disabled (AutoRole.add_autorole_button_ self1')
      = disabled (AutoRole.add_autorole_button_ AutoRole.initial)
    ∧ title embed = "Auto Role Configuration"
    ∧ color embed = 16206598.
Proof.
  exact (autorole_render_from_record_only Store.api 1 AutoRole.initial
           (AutoRole.mkView (mkButton "Change autorole" false)
                            (mkButton "Remove autorole" false))
           (Store.world Store.empty) (Store.fetch 1 Store.empty)
           (Store.mk ∅ ∅ ∅ {[ 1 := Store.fetch 1 Store.empty ]} true) eq_refl).
Defined.

(** X8: on the in-memory backend, a change made through the menu shows in
    the next render, whatever was cached before.  After
    [add_autorole_button] with a role that is live in the guild, the menu
    renders that role with "Change autorole" and an enabled remove button;
    after [remove_autorole_button] it renders the unset state with the
    remove button disabled. *)
Theorem autorole_change_shows_in_next_render (s : Store.t) guild_id role self :
  Store.online s = true →
  Store.roles s !! Role.id role = Some role →
  (∃ embed self' w',
     AutoRole.format_initial_message Store.api self guild_id
       (snd (AutoRole.add_autorole_button Store.api guild_id (Some role) (Store.world s)))
       = (Ok (embed, self'), w')
     ∧ description embed = Some (AutoRole.healthy_description role)
     ∧ label (AutoRole.add_autorole_button_ self') = "Change autorole"
     ∧ disabled (AutoRole.remove_autorole_button_ self') = false)
  ∧ (∃ embed self' w',
       AutoRole.format_initial_message Store.api self guild_id
         (snd (AutoRole.remove_autorole_button Store.api guild_id (Store.world s)))
         = (Ok (embed, self'), w')
       ∧ description embed = Some AutoRole.unset_description
       ∧ label (AutoRole.add_autorole_button_ self') = "Add an autorole"
       ∧ disabled (AutoRole.remove_autorole_button_ self') = true).
Proof.
  intros Hon Hrole. split.
  - unfold AutoRole.add_autorole_button, AutoRole.format_initial_message.
    rewrite !ui_then. unfold mbind, M_bind, call. simpl.
    unfold Store.add_config_key, Store.get_guild_bot_config, Store.invalidate.
    rewrite Hon. simpl. rewrite lookup_delete_eq.
    unfold autorole, Store.fetch. simpl. rewrite lookup_insert_eq, Hrole.
    eexists _, _, _. repeat split.
  - unfold AutoRole.remove_autorole_button, AutoRole.format_initial_message.
    unfold mbind, M_bind, call, ui. simpl.
    unfold Store.remove_config_key, Store.get_guild_bot_config, Store.invalidate.
    rewrite Hon. simpl. rewrite lookup_delete_eq.
    unfold autorole, Store.fetch. simpl. rewrite lookup_delete_eq.
    eexists _, _, _. repeat split.
Qed.

Lemma autorole_change_shows_in_next_render_witness :
  (∃ embed self' w',
     AutoRole.format_initial_message Store.api AutoRole.initial 1
       (snd (AutoRole.add_autorole_button Store.api 1 (Some role42)
               (Store.world (Store.mk ∅ ∅ {[ 42 := role42 ]}
                               {[ 1 := Store.fetch 1 Store.empty ]} true))))
       = (Ok (embed, self'), w')
     ∧ description embed = Some (AutoRole.healthy_description role42)
     ∧ label (AutoRole.add_autorole_button_ self') = "Change autorole"
     ∧ disabled (AutoRole.remove_autorole_button_ self') = false)
  ∧ (∃ embed self' w',
       AutoRole.format_initial_message Store.api AutoRole.initial 1
         (snd (AutoRole.remove_autorole_button Store.api 1
                 (Store.world (Store.mk ∅ ∅ {[ 42 := role42 ]}
                                 {[ 1 := Store.fetch 1 Store.empty ]} true))))
         = (Ok (embed, self'), w')
       ∧ description embed = Some AutoRole.unset_description
       ∧ label (AutoRole.add_autorole_button_ self') = "Add an autorole"
       ∧ disabled (AutoRole.remove_autorole_button_ self') = true).
Proof.
  apply (autorole_change_shows_in_next_render
           (Store.mk ∅ ∅ {[ 42 := role42 ]} {[ 1 := Store.fetch 1 Store.empty ]} true)
           1 role42 AutoRole.initial).
  - reflexivity.
  - reflexivity.
Defined.

(** * Properties of the process bootstrap *)

(** Membership in an explicit list, shown by walking to the element. *)
Ltac find_in :=
  repeat first [apply list_elem_of_here | apply list_elem_of_further].

Section cli_facts.
Context {E : Type} (sys : Cli.Sys E).

Lemma cli_bind_ok {A B} (m : Cli.M E A) (k : A → Cli.M E B) w a w1 :
  m w = (Cli.Ok a, w1) → (m ≫= k) w = k a w1.
Proof. intros H. unfold mbind, Cli.M_bind. by rewrite H. Qed.

Lemma cli_bind_raise {A B} (m : Cli.M E A) (k : A → Cli.M E B) w e w1 :
  m w = (Cli.Raise e, w1) → (m ≫= k) w = (Cli.Raise e, w1).
Proof. intros H. unfold mbind, Cli.M_bind. by rewrite H. Qed.

Lemma cli_ext_then {B} ev (k : Cli.M E B) w :
  (Cli.ext ev;; k) w
  = k (Cli.mkWorld (Cli.backend w) (Cli.logging_state w) (Cli.events w ++ [ev])).
Proof. reflexivity. Qed.

(** What [prepare_bot] does, whichever of its calls raises: it only adds
    calls, all of them its own; it leaves logging alone; and it calls
    Sentry exactly for a configured DSN, with the environment the beta
    prefix decides and the commit the shell reported. *)
Lemma prepare_bot_extends config (w : Cli.World E) :
  ∃ evs,
    Cli.events (snd (Cli.prepare_bot sys config w)) = Cli.events w ++ evs
    ∧ Cli.logging_state (snd (Cli.prepare_bot sys config w)) = Cli.logging_state w
    ∧ (∀ ev, ev ∈ evs →
         match ev with
         | Cli.EvMakedirs _ | Cli.EvRunInShell _ | Cli.EvSentryInit _ _ _
         | Cli.EvLightningBot _ | Cli.EvSetCommitHash _ => True
         | _ => False
         end)
    ∧ (∀ dsn environment release,
         Cli.EvSentryInit dsn environment release ∈ evs
         ↔ Cli.sentry (Cli.tokens config) = Some dsn
           ∧ environment
             = (if Cli.truthy_str (Cli.beta_prefix (Cli.bot config))
                then "dev" else "prod")
           ∧ release
             = fst (Cli.run_in_shell sys "git rev-parse HEAD" (Cli.backend w))).
Proof.
  unfold Cli.prepare_bot, Cli.os_path_exists, Cli.shell_output, Cli.call, Cli.ext,
    mbind, Cli.M_bind, mret, Cli.M_ret.
  remember (if Cli.truthy_str (Cli.beta_prefix (Cli.bot config))
            then "dev" else "prod") as env eqn:Henv.
  clear Henv. simpl.
  destruct (Cli.path_exists sys "config" (Cli.backend w)); simpl;
    destruct (Cli.run_in_shell sys "git rev-parse HEAD" (Cli.backend w))
      as [commit e1]; simpl;
    destruct (Cli.sentry (Cli.tokens config)) as [dsn0|]; simpl;
    repeat match goal with
           | |- context [match ?x with _ => _ end] =>
               lazymatch x with
               | context [match _ with _ => _ end] => fail
               | _ => destruct x as [[[]|?] ?]; simpl
               end
           end;
    rewrite <- ?(assoc_L (++)); simpl;
    (eexists; split; [reflexivity |]; split; [reflexivity |]; split;
     [ intros ev Hin;
       repeat (apply elem_of_cons in Hin as [->|Hin]; [done |]);
       by apply elem_of_nil in Hin
     | intros dsn environment release; split;
       [ intros Hin; split_in Hin; try (by injection Hin as -> -> ->)
       | intros (Hd & -> & ->); try discriminate Hd;
         injection Hd as ->; find_in ] ]).
Qed.

Lemma prepare_bot_since config (w : Cli.World E) :
  Cli.events (snd (Cli.prepare_bot sys config w))
  = Cli.events w ++ Cli.since w (snd (Cli.prepare_bot sys config w)).
Proof.
  destruct (prepare_bot_extends config w) as (evs & Hev & _).
  unfold Cli.since. rewrite Hev. by rewrite drop_app_length.
Qed.


(** Every way through [launch_bot] once it is prepared. *)
Lemma launch_bot_run config (w w1 : Cli.World E) r1 e2 r2 e3 :
  Cli.prepare_bot sys config w = (Cli.Ok tt, w1) →
  Cli.create_pool sys (Cli.postgres_uri (Cli.tokens config)) 60 (Cli.backend w1)
    = (r1, e2) →
  Cli.redis_ping sys e2 = (r2, e3) →
  Cli.launch_bot sys config w =
  let pool := Cli.EvCreatePool (Cli.postgres_uri (Cli.tokens config)) 60 in
  let client :=
    Cli.EvRedis (Cli.host (Cli.redis (Cli.tokens config)))
      (Cli.port (Cli.redis (Cli.tokens config)))
      (Cli.db (Cli.redis (Cli.tokens config)))
      (Cli.password (Cli.redis (Cli.tokens config))) in
  match r1 with
  | Cli.Raise e =>
      Cli.connection_failed e e2 (Cli.logging_state w1) (Cli.events w1 ++ [pool])
  | Cli.Ok _ =>
      match r2 with
      | Cli.Raise e =>
          Cli.connection_failed e e3 (Cli.logging_state w1)
            (Cli.events w1 ++ [pool; client; Cli.EvPing])
      | Cli.Ok _ =>
          (fst (Cli.bot_start sys (Cli.discord (Cli.tokens config)) e3),
           Cli.mkWorld (snd (Cli.bot_start sys (Cli.discord (Cli.tokens config)) e3))
             (Cli.logging_state w1)
             (Cli.events w1 ++ [pool; client; Cli.EvPing;
                                Cli.EvStart (Cli.discord (Cli.tokens config))]))
      end
  end.
Proof.
  intros Hprep Hpool Hping.
  unfold Cli.launch_bot. rewrite (cli_bind_ok _ _ _ _ _ Hprep).
  unfold Cli.try_except, Cli.connection_failed, Cli.call, Cli.ext, mbind, Cli.M_bind,
    mret, Cli.M_ret.
  simpl. rewrite Hpool. simpl.
  destruct r1 as [[]|[]]; simpl; rewrite ?Hping; simpl;
    try destruct r2 as [[]|[]]; simpl;
    try destruct (Cli.bot_start sys (Cli.discord (Cli.tokens config)) e3);
    simpl; rewrite <- ?(assoc_L (++)); simpl; reflexivity.
Qed.

(** [launch_bot] leaves the logging configuration alone. *)
Lemma launch_bot_logging config (w : Cli.World E) :
  Cli.logging_state (snd (Cli.launch_bot sys config w)) = Cli.logging_state w.
Proof.
  destruct (prepare_bot_extends config w) as (evs & _ & Hlog & _).
  destruct (Cli.prepare_bot sys config w) as [[[]|e] w1] eqn:Hprep.
  - destruct (Cli.create_pool sys (Cli.postgres_uri (Cli.tokens config)) 60
                (Cli.backend w1)) as [r1 e2] eqn:Hpool.
    destruct (Cli.redis_ping sys e2) as [r2 e3] eqn:Hping.
    rewrite (launch_bot_run config w w1 _ _ _ _ Hprep Hpool Hping).
    simpl in Hlog. by destruct r1 as [[]|[]], r2 as [[]|[]].
  - unfold Cli.launch_bot. by rewrite (cli_bind_raise _ _ _ _ _ Hprep).
Qed.

(** The calls of one [launch_bot], in their order: those of the
    preparation, then, if it returned, those of connecting. *)
Lemma launch_bot_since config (w w1 : Cli.World E) r0 r1 e2 r2 e3 :
  Cli.prepare_bot sys config w = (r0, w1) →
  Cli.create_pool sys (Cli.postgres_uri (Cli.tokens config)) 60 (Cli.backend w1)
    = (r1, e2) →
  Cli.redis_ping sys e2 = (r2, e3) →
  Cli.since w (snd (Cli.launch_bot sys config w)) =
  let pool := Cli.EvCreatePool (Cli.postgres_uri (Cli.tokens config)) 60 in
  let client :=
    Cli.EvRedis (Cli.host (Cli.redis (Cli.tokens config)))
      (Cli.port (Cli.redis (Cli.tokens config)))
      (Cli.db (Cli.redis (Cli.tokens config)))
      (Cli.password (Cli.redis (Cli.tokens config))) in
  let logged e :=
    match e with
    | Cli.PostgresConnectionError =>
        [Cli.EvLogException Cli.postgres_failure_message e]
    | Cli.RedisConnectionError =>
        [Cli.EvLogException Cli.redis_failure_message e]
    | Cli.OtherError => []
    end in
  Cli.since w (snd (Cli.prepare_bot sys config w))
  ++ match r0 with
     | Cli.Raise _ => []
     | Cli.Ok _ =>
         match r1 with
         | Cli.Raise e => pool :: logged e
         | Cli.Ok _ =>
             match r2 with
             | Cli.Raise e => pool :: client :: Cli.EvPing :: logged e
             | Cli.Ok _ =>
                 [pool; client; Cli.EvPing;
                  Cli.EvStart (Cli.discord (Cli.tokens config))]
             end
         end
     end.
Proof.
  intros Hprep Hpool Hping.
  pose proof (prepare_bot_since config w) as Hev. rewrite Hprep in *. simpl in Hev.
  destruct r0 as [[]|e0].
  - rewrite (launch_bot_run config w w1 _ _ _ _ Hprep Hpool Hping).
    unfold Cli.connection_failed. simpl.
    destruct r1 as [[]|[]]; [destruct r2 as [[]|[]] | | |]; simpl;
      unfold Cli.since at 1; simpl; rewrite Hev;
      rewrite <- ?(assoc_L (++)); by rewrite drop_app_length.
  - unfold Cli.launch_bot. rewrite (cli_bind_raise _ _ _ _ _ Hprep). simpl.
    by rewrite (right_id_L [] (++)).
Qed.

End cli_facts.





(** X11: Sentry is set up exactly when a DSN is configured, once, with the
    commit the shell reported as release and with the environment "dev"
    when a non-empty beta prefix is configured and "prod" otherwise. *)
Theorem launch_bot_sentry {E} (sys : Cli.Sys E) config (w : Cli.World E)
    dsn environment release :
  Cli.EvSentryInit dsn environment release
    ∈ Cli.since w (snd (Cli.launch_bot sys config w))
  ↔ Cli.sentry (Cli.tokens config) = Some dsn
    ∧ environment
      = (if Cli.truthy_str (Cli.beta_prefix (Cli.bot config)) then "dev" else "prod")
    ∧ release = fst (Cli.run_in_shell sys "git rev-parse HEAD" (Cli.backend w)).
Proof.
  destruct (Cli.prepare_bot sys config w) as [r0 w1] eqn:Hprep.
  destruct (Cli.create_pool sys (Cli.postgres_uri (Cli.tokens config)) 60
              (Cli.backend w1)) as [r1 e2] eqn:Hpool.
  destruct (Cli.redis_ping sys e2) as [r2 e3] eqn:Hping.
  rewrite (launch_bot_since sys config w w1 _ _ _ _ _ Hprep Hpool Hping). simpl.
  destruct (prepare_bot_extends sys config w) as (evs & Hev & _ & _ & Hs).
  assert (Cli.since w (snd (Cli.prepare_bot sys config w)) = evs) as ->.
  { unfold Cli.since. rewrite Hev. by rewrite drop_app_length. }
  rewrite elem_of_app, <- Hs. split; [| by left].
  intros [Hb|Hc]; [done |].
  destruct r0 as [[]|e0]; [| by split_in Hc].
  destruct r1 as [[]|[]]; [destruct r2 as [[]|[]] | | |]; by split_in Hc.
Qed.

(** X12: what [main] does to logging.  With a subcommand it does nothing.
    Without one, if the configuration cannot be loaded the error goes on
    and logging is left untouched; otherwise logging is set up for that
    configuration, the bot is launched, and logging is shut down when the
    launch ends, whether it returned or raised. *)
Theorem main_brackets_launch_with_logging {E} (sys : Cli.Sys E)
    (w : Cli.World E) r e1 :
  Cli.load_config sys (Cli.backend w) = (r, e1) →
  (∀ subcommand, Cli.main sys (Some subcommand) w = (Cli.Ok tt, w))
  ∧ match r with
    | Cli.Raise e =>
        Cli.main sys None w
        = (Cli.Raise e,
           Cli.mkWorld e1 (Cli.logging_state w) (Cli.events w ++ [Cli.EvConfig]))
    | Cli.Ok config =>
        let launched :=
          Cli.launch_bot sys config
            (Cli.mkWorld e1 (Cli.setup_logging config (Cli.logging_state w))
               (Cli.events w ++ [Cli.EvConfig])) in
        fst (Cli.main sys None w) = fst launched
        ∧ Cli.backend (snd (Cli.main sys None w)) = Cli.backend (snd launched)
        ∧ Cli.events (snd (Cli.main sys None w)) = Cli.events (snd launched)
        ∧ Cli.logging_state (snd (Cli.main sys None w))
          = Cli.shutdown (Cli.setup_logging config (Cli.logging_state w))
        ∧ Cli.shut_down (Cli.logging_state (snd (Cli.main sys None w))) = true
    end.
Proof.
  intros Hcfg. split; [done |].
  unfold Cli.main, mbind, Cli.M_bind, Cli.call. rewrite Hcfg.
  destruct r as [config|e]; [| done].
  unfold Cli.init_logging, Cli.try_finally, Cli.update_logging. simpl.
  pose proof (launch_bot_logging sys config
                (Cli.mkWorld e1 (Cli.setup_logging config (Cli.logging_state w))
                   (Cli.events w ++ [Cli.EvConfig]))) as Hlog.
  destruct (Cli.launch_bot sys config
              (Cli.mkWorld e1 (Cli.setup_logging config (Cli.logging_state w))
                 (Cli.events w ++ [Cli.EvConfig]))) as [r' w'].
  simpl in *. by rewrite Hlog.
Qed.

Lemma main_brackets_launch_with_logging_witness :
  (∀ subcommand,
     Cli.main Cli.scripted (Some subcommand) (Cli.fresh Cli.script_redis_down)
     = (Cli.Ok tt, Cli.fresh Cli.script_redis_down))
  ∧ fst (Cli.main Cli.scripted None (Cli.fresh Cli.script_redis_down)) = Cli.Ok tt
  ∧ Cli.logging_state (snd (Cli.main Cli.scripted None (Cli.fresh Cli.script_redis_down)))
    = Cli.shutdown (Cli.setup_logging Cli.sample_config Cli.no_logging)
  ∧ Cli.shut_down
      (Cli.logging_state (snd (Cli.main Cli.scripted None (Cli.fresh Cli.script_redis_down))))
    = true.
Proof.
  destruct (main_brackets_launch_with_logging Cli.scripted
              (Cli.fresh Cli.script_redis_down) (Cli.Ok Cli.sample_config)
              Cli.script_redis_down eq_refl)
    as (Hsub & Hres & _ & _ & Hlog & Hdown).
  split; [exact Hsub |]. split; [exact Hres |]. split; [exact Hlog | exact Hdown].
Defined.

(** X13: setting logging up again.  [init_logging] empties the root
    logger before it adds its file handler (8,000,000 bytes, 10 backups)
    and, if the console is configured, the console handler; the discord
    logger is not emptied.  Set up twice, the root logger has the same
    handlers as after once, the discord logger has two debug handlers more
    than before. *)
Theorem logging_setup_twice (config : Cli.Config) (st : Cli.Logging) :
  let file_handler :=
    Cli.RotatingFileHandler "lightning.log" "a" 8000000 10 None
      (Some Cli.log_format) (Some "INFO") in
  let db_fh :=
    Cli.RotatingFileHandler "discord-debug.log" "w" 8000000 5 (Some "utf-8")
      (Some Cli.log_format) None in
  let once := Cli.setup_logging config st in
  let twice := Cli.setup_logging config once in
  Cli.handlers (Cli.root once)
    = file_handler :: (if Cli.console (Cli.logging config)
                       then [Cli.RichHandler "INFO"] else [])
  ∧ Cli.handlers (Cli.root twice) = Cli.handlers (Cli.root once)
  ∧ Cli.handlers (Cli.discord_logger once)
    = Cli.handlers (Cli.discord_logger st) ++ [db_fh]
  ∧ Cli.handlers (Cli.discord_logger twice)
    = Cli.handlers (Cli.discord_logger st) ++ [db_fh; db_fh].
Proof.
  unfold Cli.setup_logging, Cli.addHandler, Cli.setLevel.
  destruct st as [[[|h hs] lvl] [dhs dlvl] down];
    destruct (Cli.console (Cli.logging config)); simpl;
    rewrite <- ?(assoc_L (++)); done.
Qed.

(** X14: [docker_run] launches nothing before the migrations went
    through.  When connecting for the migrations or applying them raises,
    the error reaches the caller: the configuration is not loaded, logging
    is not set up, the bot is not launched, and, when it was applying that
    failed, the connection is not closed. *)
Theorem docker_run_failed_migration {E} (sys : Cli.Sys E) (w : Cli.World E)
    r1 e1 r2 e2 e :
  Cli.connect sys (Cli.migrator_uri sys (Cli.backend w)) (Cli.backend w) = (r1, e1) →
  Cli.apply_revisions sys e1 = (r2, e2) →
  r1 = Cli.Raise e ∨ (r1 = Cli.Ok tt ∧ r2 = Cli.Raise e) →
  Cli.docker_run sys w
  = (Cli.Raise e,
     Cli.mkWorld (match r1 with Cli.Ok _ => e2 | Cli.Raise _ => e1 end)
       (Cli.logging_state w)
       (Cli.events w
        ++ [Cli.EvEcho "Applying migrations..."; Cli.EvMigrator;
            Cli.EvConnect (Cli.migrator_uri sys (Cli.backend w))]
        ++ match r1 with Cli.Ok _ => [Cli.EvApplyRevisions] | Cli.Raise _ => [] end)).
Proof.
  intros Hconn Happly Hfail.
  unfold Cli.docker_run. rewrite !cli_ext_then.
  unfold mbind, Cli.M_bind, Cli.call. simpl. rewrite Hconn.
  destruct Hfail as [-> | [-> ->]]; simpl.
  - by rewrite <- !(assoc_L (++)).
  - rewrite Happly. simpl. by rewrite <- !(assoc_L (++)).
Qed.

Lemma docker_run_failed_migration_witness :
  Cli.docker_run Cli.scripted (Cli.fresh Cli.script_no_database)
  = (Cli.Raise Cli.PostgresConnectionError,
     Cli.mkWorld Cli.script_no_database Cli.no_logging
       ([] ++ [Cli.EvEcho "Applying migrations..."; Cli.EvMigrator;
               Cli.EvConnect "postgres://migrator"] ++ [])).
Proof.
  exact (docker_run_failed_migration Cli.scripted (Cli.fresh Cli.script_no_database)
           (Cli.Raise Cli.PostgresConnectionError) Cli.script_no_database
           (Cli.Ok tt) Cli.script_no_database Cli.PostgresConnectionError
           eq_refl eq_refl (or_introl eq_refl)).
Defined.

(** * Properties of the menus as a whole *)

(** Takes a handler apart along every answer its collaborators can give. *)
Ltac every_path :=
  unfold mbind, M_bind, try_except, call, ui, raise, mret, M_ret; simpl;
  repeat match goal with
         | |- context [match ?x with _ => _ end] =>
             lazymatch x with
             | context [match _ with _ => _ end] => fail
             | _ => destruct x eqn:?; simpl
             end
         end;
  rewrite <- ?(assoc_L (++)); rewrite drop_app_length.



(** X16: renders read, handlers write once at most.  Whatever the backend
    answers, the two renders, [update_components] and [get_prefixes] make
    no call that writes, and one activation of any of the four handlers
    makes at most one. *)
Theorem menus_write_at_most_once {E} (api : Api E) guild_id (w : World E)
    (autorole_view : AutoRole.view) (prefix_view : Prefix.view)
    (prompt_role : option Role.t) (modal_value : string) (select_values : list string) :
  let written (w' : World E) := writes (drop (length (events w)) (events w')) in
  written (snd (AutoRole.format_initial_message api autorole_view guild_id w)) = []
  ∧ written (snd (Prefix.format_initial_message api guild_id w)) = []
  ∧ written (snd (Prefix.update_components api prefix_view guild_id w)) = []
  ∧ written (snd (Prefix.get_prefixes api guild_id w)) = []
  ∧ (length (written (snd (AutoRole.add_autorole_button api guild_id prompt_role w))) ≤ 1)%nat
  ∧ (length (written (snd (AutoRole.remove_autorole_button api guild_id w))) ≤ 1)%nat
  ∧ (length (written (snd (Prefix.add_prefix api guild_id modal_value w))) ≤ 1)%nat
  ∧ (length (written (snd (Prefix.remove_prefix api guild_id select_values w))) ≤ 1)%nat.
Proof.
  simpl. repeat split.
  - unfold AutoRole.format_initial_message, autorole. by every_path.
  - unfold Prefix.format_initial_message, Prefix.get_prefixes. by every_path.
  - unfold Prefix.update_components, Prefix.get_prefixes. by every_path.
  - unfold Prefix.get_prefixes. by every_path.
  - unfold AutoRole.add_autorole_button. every_path; simpl; lia.
  - unfold AutoRole.remove_autorole_button. every_path; simpl; lia.
  - unfold Prefix.add_prefix, Prefix.get_prefixes, list_contains.
    every_path; simpl; lia.
  - unfold Prefix.remove_prefix, Prefix.get_prefixes. every_path; simpl; lia.
Qed.
